(** * Session event pipeline of the interactive resume (analytics.js)

    A shallow embedding of the [AnalyticsManager] class of
    [frontend/assets/js/analytics.js] and of the listeners it installs,
    followed by the properties that the design document states about it.

    Conventions of the embedding.
    - The object's fields are a record; every method is a computation in a
      small state-and-output monad [M]: it reads and updates the record and
      appends to a log of the effects that leave the object ([fetch],
      [gtag], [console]).
    - What a method reads from the browser ([Date.now()], [window.scrollY],
      [navigator], ...) is passed in as a [World].
    - [sendAnalytics] is an [async] function.  It runs synchronously up to
      its single [await]; that part is [sendAnalytics].  The part that runs
      when the promise of [fetch] settles is [sendAnalytics_settle].
    - Timers are explicit: the handle of the inactivity timeout is stored
      with the instant at which it is due, and an event loop delivers it.
    - Pixel coordinates and clock readings are integers.  Finite IEEE
      doubles are idealised as exact rationals; the non-finite results of a
      division ([NaN], [Infinity]) are kept. *)

From Stdlib Require Import ZArith QArith Qround Qminmax Ascii String List Sorted Lia.
From stdpp Require Import gmap strings list fin_maps pretty.

Close Scope Q_scope.
Set Warnings "-register-all".
Local Open Scope string_scope.
Local Open Scope list_scope.
Local Open Scope Z_scope.

(** ** JavaScript values carried by events *)

Inductive value : Type :=
| VUndefined
| VNull
| VBool (b : bool)
| VNum (n : Z)
| VStr (s : string)
| VArr (items : list value)
| VObj (fields : list (string * value)).

(** Structural equality test.  On primitives it is JavaScript's [===]
    (no number of an event is NaN or a negative zero). *)
Fixpoint value_eqb (a b : value) {struct a} : bool :=
  match a, b with
  | VUndefined, VUndefined => true
  | VNull, VNull => true
  | VBool x, VBool y => Bool.eqb x y
  | VNum x, VNum y => Z.eqb x y
  | VStr x, VStr y => String.eqb x y
  | VArr xs, VArr ys =>
      (fix go (l1 l2 : list value) {struct l1} : bool :=
         match l1, l2 with
         | [], [] => true
         | x :: l1', y :: l2' => value_eqb x y && go l1' l2'
         | _, _ => false
         end) xs ys
  | VObj xs, VObj ys =>
      (fix go (l1 l2 : list (string * value)) {struct l1} : bool :=
         match l1, l2 with
         | [], [] => true
         | (k1, x) :: l1', (k2, y) :: l2' =>
             String.eqb k1 k2 && value_eqb x y && go l1' l2'
         | _, _ => false
         end) xs ys
  | _, _ => false
  end.

(** A value that is not an array or an object. *)
Definition primitive (v : value) : bool :=
  match v with
  | VArr _ | VObj _ => false
  | _ => true
  end.

(** [SameValueZero], the equality of [Set].  Two primitives are the same
    when they are equal.  Two arrays or objects are the same when they
    are one object; the values here carry no identity, and each array or
    object value stands for an object of its own (as when every payload
    is built by its own literal), so that two of them are never the same.
    What is stated about sets below is stated of primitive members, for
    which nothing is assumed. *)
Definition SameValueZero (a b : value) : bool :=
  primitive a && value_eqb a b.

(** An event is a JavaScript object: a finite map from property names. *)
Abbreviation event := (gmap string value).

(** [e.k]: reading a property that is absent gives [undefined]. *)
Definition prop (e : event) (k : string) : value := default VUndefined (e !! k).

(** ** The browser as the code reads it *)

Record World : Type := {
  w_now : Z;               (* Date.now(), milliseconds *)
  w_iso : string;          (* new Date().toISOString() *)
  w_href : string;         (* window.location.href *)
  w_gtag : bool;           (* typeof gtag !== 'undefined' *)
  w_user_info : value;     (* the user_info block of a request *)
  w_scrollY : Z;           (* window.scrollY *)
  w_scrollHeight : Z;      (* document.documentElement.scrollHeight *)
  w_innerHeight : Z        (* window.innerHeight *)
}.

(** ** The object *)

Record AnalyticsManager : Type := {
  sessionId : string;
  startTime : Z;
  events : list event;
  isActive : bool;
  lastActivity : Z;
  scrollMilestones : option (gmap Z bool);      (* undefined until first use *)
  heatmapData : option (list (string * Z));     (* undefined until first use;
                                                   own keys in insertion order *)
  inactivityTimeout : option Z                  (* due time of the armed timer *)
}.

Definition set_events (f : list event -> list event) (s : AnalyticsManager) :=
  {| sessionId := sessionId s; startTime := startTime s;
     events := f (events s); isActive := isActive s;
     lastActivity := lastActivity s; scrollMilestones := scrollMilestones s;
     heatmapData := heatmapData s; inactivityTimeout := inactivityTimeout s |}.

Definition set_isActive (b : bool) (s : AnalyticsManager) :=
  {| sessionId := sessionId s; startTime := startTime s;
     events := events s; isActive := b;
     lastActivity := lastActivity s; scrollMilestones := scrollMilestones s;
     heatmapData := heatmapData s; inactivityTimeout := inactivityTimeout s |}.

Definition set_lastActivity (t : Z) (s : AnalyticsManager) :=
  {| sessionId := sessionId s; startTime := startTime s;
     events := events s; isActive := isActive s;
     lastActivity := t; scrollMilestones := scrollMilestones s;
     heatmapData := heatmapData s; inactivityTimeout := inactivityTimeout s |}.

Definition set_scrollMilestones (m : option (gmap Z bool)) (s : AnalyticsManager) :=
  {| sessionId := sessionId s; startTime := startTime s;
     events := events s; isActive := isActive s;
     lastActivity := lastActivity s; scrollMilestones := m;
     heatmapData := heatmapData s; inactivityTimeout := inactivityTimeout s |}.

Definition set_heatmapData (h : option (list (string * Z))) (s : AnalyticsManager) :=
  {| sessionId := sessionId s; startTime := startTime s;
     events := events s; isActive := isActive s;
     lastActivity := lastActivity s; scrollMilestones := scrollMilestones s;
     heatmapData := h; inactivityTimeout := inactivityTimeout s |}.

Definition set_inactivityTimeout (d : option Z) (s : AnalyticsManager) :=
  {| sessionId := sessionId s; startTime := startTime s;
     events := events s; isActive := isActive s;
     lastActivity := lastActivity s; scrollMilestones := scrollMilestones s;
     heatmapData := heatmapData s; inactivityTimeout := d |}.

(** ** Effects that leave the object *)

Record request : Type := {
  r_session_id : string;
  r_events : list event;
  r_user_info : value
}.

Inductive effect : Type :=
| Fetch (body : request)                    (* POST /api/analytics/track *)
| Gtag (name : string) (data : event)       (* gtag('event', name, data) *)
| LogEvent (name : string) (data : event)   (* console.log('Analytics Event:', ..) *)
| LogInit (sessionId : string)              (* console.log('Analytics initialized ..') *)
| LogSent (n : nat)                         (* console.log(`Sent ${n} ...`) *)
| WarnFailed.                               (* console.warn('Failed to send ..') *)

(** ** The monad of methods: state of the object and log of effects *)

Definition M (A : Type) : Type :=
  AnalyticsManager -> A * AnalyticsManager * list effect.

Definition ret {A} (a : A) : M A := fun s => (a, s, []).

Definition bind {A B} (m : M A) (k : A -> M B) : M B :=
  fun s =>
    let '(a, s1, o1) := m s in
    let '(b, s2, o2) := k a s1 in
    (b, s2, o1 ++ o2).

Definition get : M AnalyticsManager := fun s => (s, s, []).
Definition modify (f : AnalyticsManager -> AnalyticsManager) : M unit :=
  fun s => (tt, f s, []).
Definition emit (e : effect) : M unit := fun s => (tt, s, [e]).
Definition when (b : bool) (m : M unit) : M unit := if b then m else ret tt.

Declare Scope js_scope.
Delimit Scope js_scope with js.
Notation "'let*' x ':=' m 'in' k" := (bind m (fun x => k))
  (at level 10, x name, m at level 100, k at level 200) : js_scope.
Notation "m ';;' k" := (bind m (fun _ => k))
  (at level 100, k at level 200, right associativity) : js_scope.
Local Open Scope js_scope.

(** State and log after running a method. *)
Definition state_of {A} (r : A * AnalyticsManager * list effect) := snd (fst r).
Definition log_of {A} (r : A * AnalyticsManager * list effect) := snd r.

(** [array.forEach(f)] for a callback that is a method. *)
Fixpoint forEach {A} (f : A -> M unit) (l : list A) : M unit :=
  match l with
  | [] => ret tt
  | x :: l' => f x ;; forEach f l'
  end.

(** ** [sendAnalytics] and [trackEvent] *)

(** [async sendAnalytics()], up to the [await]: nothing when the queue is
    empty, otherwise one POST whose body is the queue as it is now
    ([JSON.stringify] runs before [fetch] is called). *)
Definition sendAnalytics (w : World) : M unit :=
  let* s := get in
  if (length (events s) =? 0)%nat then ret tt
  else emit (Fetch {| r_session_id := sessionId s;
                      r_events := events s;
                      r_user_info := w_user_info w |}).

(** How the promise of [fetch] settles. *)
Inductive response : Type :=
| Resolved (status : Z)     (* an HTTP response arrived *)
| Rejected.                 (* network error: the promise rejects *)

(** [response.ok] *)
Definition ok (status : Z) : bool := (200 <=? status) && (status <=? 299).

(** [sendAnalytics], from the [await] on. *)
Definition sendAnalytics_settle (r : response) : M unit :=
  match r with
  | Resolved status =>
      when (ok status)
        (let* s := get in
         emit (LogSent (length (events s))) ;;
         modify (set_events (fun _ => [])))
  | Rejected => emit WarnFailed      (* Keep events for retry *)
  end.

(** The envelope of [trackEvent] and the object literal
    [{event, session_id, timestamp, page_url, ...eventData}]: the spread
    comes last, so its properties win. *)
Definition envelope (eventName : string) (w : World) (s : AnalyticsManager) : event :=
  <["event" := VStr eventName]>
    (<["session_id" := VStr (sessionId s)]>
       (<["timestamp" := VStr (w_iso w)]>
          (<["page_url" := VStr (w_href w)]> ∅))).

Definition make_event (eventName : string) (eventData : event)
    (w : World) (s : AnalyticsManager) : event :=
  eventData ∪ envelope eventName w s.

Definition trackEvent (eventName : string) (eventData : event) (w : World) : M unit :=
  let* s := get in
  modify (set_events (fun q => q ++ [make_event eventName eventData w s])) ;;
  let* s' := get in
  when (10 <=? length (events s'))%nat (sendAnalytics w) ;;
  when (w_gtag w) (emit (Gtag eventName eventData)) ;;
  emit (LogEvent eventName eventData).

(** ** Numbers that a division can produce *)

Inductive number : Type :=
| Fin (q : Q)
| PosInf
| NegInf
| NaN.

(** [a / b] on two finite integers (the divisor of the code is a
    difference of integers, hence never a negative zero). *)
Definition js_div (a b : Z) : number :=
  if b =? 0 then
    (if a =? 0 then NaN else if 0 <? a then PosInf else NegInf)
  else Fin (inject_Z a / inject_Z b)%Q.

(** [x * k] for a positive integer constant [k]. *)
Definition js_mul_pos (x : number) (k : Z) : number :=
  match x with
  | Fin q => Fin (q * inject_Z k)%Q
  | other => other
  end.

(** [Math.round]: the nearest integer, halves towards +infinity. *)
Definition Math_round (x : number) : number :=
  match x with
  | Fin q => Fin (inject_Z (Qfloor (q + (1 # 2))%Q))
  | other => other
  end.

(** [x >= m]: false as soon as [x] is [NaN]. *)
Definition js_ge (x : number) (m : Z) : bool :=
  match x with
  | Fin q => Qle_bool (inject_Z m) q
  | PosInf => true
  | NegInf => false
  | NaN => false
  end.

(** ** Scroll depth *)

Definition scrollPercent (w : World) : number :=
  Math_round
    (js_mul_pos (js_div (w_scrollY w) (w_scrollHeight w - w_innerHeight w)) 100).

Definition milestones : list Z := [25; 50; 75; 100].

(** [this.scrollMilestones?.[milestone]], as a condition. *)
Definition milestone_seen (s : AnalyticsManager) (milestone : Z) : bool :=
  match scrollMilestones s with
  | None => false
  | Some ms => default false (ms !! milestone)
  end.

Definition scroll_depth_data (milestone : Z) (w : World) : event :=
  <["percentage" := VNum milestone]>
    (<["absolute_position" := VNum (w_scrollY w)]> ∅).

(** The callback of [milestones.forEach]. *)
Definition on_milestone (scrollPercent : number) (w : World) (milestone : Z)
    : M unit :=
  let* s := get in
  when (js_ge scrollPercent milestone && negb (milestone_seen s milestone))
    (modify (fun s =>
       set_scrollMilestones (Some (default ∅ (scrollMilestones s))) s) ;;
     modify (fun s =>
       set_scrollMilestones
         (Some (<[milestone := true]> (default ∅ (scrollMilestones s)))) s) ;;
     trackEvent "scroll_depth" (scroll_depth_data milestone w) w).

Definition trackScrollDepth (w : World) : M unit :=
  let scrollPercent := scrollPercent w in
  forEach (on_milestone scrollPercent w) milestones.

(** ** Heatmap *)

Definition gridSize : Z := 50.

(** [h[key] = (h[key] || 0) + 1] on an object whose own keys are kept in
    insertion order. *)
Fixpoint bump (key : string) (h : list (string * Z)) : list (string * Z) :=
  match h with
  | [] => [(key, 0 + 1)]
  | (k, c) :: h' =>
      if String.eqb k key then (k, c + 1) :: h' else (k, c) :: bump key h'
  end.

(** [entries.sort(([,a], [,b]) => b - a)]: descending by count, stable. *)
Fixpoint insert_desc (x : string * Z) (l : list (string * Z)) : list (string * Z) :=
  match l with
  | [] => [x]
  | y :: l' => if snd y <=? snd x then x :: y :: l' else y :: insert_desc x l'
  end.

Definition sort_desc (l : list (string * Z)) : list (string * Z) :=
  foldr insert_desc [] l.

Definition hot_spot (e : string * Z) : value :=
  VObj [("position", VStr (fst e)); ("count", VNum (snd e))].

Definition hot_spots (h : list (string * Z)) : list (string * Z) :=
  take 5 (sort_desc h).

Definition heatmap_data (h : list (string * Z)) : event :=
  <["grid_size" := VNum gridSize]>
    (<["hot_spots" := VArr (map hot_spot (hot_spots h))]> ∅).

Definition cell_key (x y : Z) : string :=
  pretty (x / gridSize) +:+ "," +:+ pretty (y / gridSize).

Definition trackMousePosition (x y : Z) (w : World) : M unit :=
  modify (fun s => set_heatmapData (Some (default [] (heatmapData s))) s) ;;
  let key := cell_key x y in
  modify (fun s =>
    set_heatmapData (Some (bump key (default [] (heatmapData s)))) s) ;;
  let* s := get in
  when (length (default [] (heatmapData s)) mod 20 =? 0)%nat
    (trackEvent "heatmap_data" (heatmap_data (default [] (heatmapData s))) w).


(** ** Session tracking: the inactivity timer *)

(** [resetInactivityTimer]: [clearTimeout], then arm a timeout of five
    minutes from now. *)
Definition resetInactivityTimer (w : World) : M unit :=
  modify (set_inactivityTimeout None) ;;
  modify (set_isActive true) ;;
  modify (set_inactivityTimeout (Some (w_now w + 5 * 60 * 1000))).

(** The callback of that timeout.  A timeout runs once: its handle is
    spent when the callback starts. *)
Definition inactivityExpired (w : World) : M unit :=
  modify (set_inactivityTimeout None) ;;
  modify (set_isActive false) ;;
  trackEvent "session_inactive" ∅ w.

(** The callback of the 30 s interval; [section] is what
    [getCurrentSection()] returns. *)
Definition sessionPing (section : string) (w : World) : M unit :=
  let* s := get in
  when (isActive s)
    (trackEvent "session_ping"
       (<["time_elapsed" := VNum (w_now w - startTime s)]>
          (<["current_section" := VStr section]> ∅)) w).

(** [getCurrentSection]: the id of the last [.section] element that
    carries the class [active], or ['unknown']. *)
Definition getCurrentSection (sections : list (string * bool)) : string :=
  fold_left (fun (current : string) (sec : string * bool) =>
               if snd sec then fst sec else current)
    sections "unknown".

Definition startSessionTracking (w : World) : M unit :=
  resetInactivityTimer w.

(** ** Engagement score *)

(** [new Set(l)], as the list of its members in insertion order. *)
Definition Set_of (l : list value) : list value :=
  fold_left (fun acc v =>
               if existsb (SameValueZero v) acc then acc else acc ++ [v])
    l [].

Definition is_navigation (e : event) : bool :=
  value_eqb (prop e "event") (VStr "navigation").

Definition sectionsVisited (q : list event) : nat :=
  length (Set_of (map (fun e => prop e "target_section")
                    (List.filter is_navigation q))).

Definition round_Q (q : Q) : Z := Qfloor (q + (1 # 2))%Q.

Definition calculateEngagementScore (w : World) (s : AnalyticsManager) : Z :=
  let timeSpent := w_now w - startTime s in
  let eventsCount := length (events s) in
  let sectionsVisited := sectionsVisited (events s) in
  let score := 0%Q in
  let score := (score + Qmin (inject_Z timeSpent / inject_Z (60 * 1000)) 10 * 10)%Q in
  let score := (score + inject_Z (Z.of_nat (Nat.min eventsCount 50)) * 2)%Q in
  let score := (score + inject_Z (Z.of_nat sectionsVisited) * 20)%Q in
  round_Q score.

(** ** Listeners *)

(** [beforeunload]: the argument object is built before [trackEvent]
    runs, so [total_events] is the queue length before the push. *)
Definition page_unload_data (w : World) (s : AnalyticsManager) : event :=
  <["total_time_spent" := VNum (w_now w - startTime s)]>
    (<["total_events" := VNum (Z.of_nat (length (events s)))]> ∅).

Definition on_beforeunload (w : World) : M unit :=
  let* s := get in
  trackEvent "page_unload" (page_unload_data w s) w ;;
  sendAnalytics w.

(** [visibilitychange] *)
Definition on_visibilitychange (hidden : bool) (w : World) : M unit :=
  if hidden then
    let* s := get in
    trackEvent "page_blur"
      (<["time_spent" := VNum (w_now w - lastActivity s)]> ∅) w
  else
    modify (set_lastActivity (w_now w)) ;;
    trackEvent "page_focus" ∅ w.

(** The target of an [input] event. *)
Record Element : Type := {
  el_is_field : bool;       (* e.target.matches('input, textarea') *)
  el_type : string;
  el_name : string;
  el_id : string;
  el_value : string
}.

(** [a || b] on strings: the empty string is falsy. *)
Definition str_or (a b : string) : string :=
  if String.eqb a "" then b else a.

Definition form_interaction_data (target : Element) : event :=
  <["element_type" := VStr (el_type target)]>
    (<["element_name" := VStr (str_or (el_name target) (el_id target))]>
       (<["has_value" := VBool (0 <? String.length (el_value target))%nat]> ∅)).

Definition on_input (target : Element) (w : World) : M unit :=
  when (el_is_field target)
    (trackEvent "form_interaction" (form_interaction_data target) w).

(** ** Construction and the exported functions *)

Definition generateSessionId (w : World) (random : string) : string :=
  "session_" +:+ pretty (w_now w) +:+ "_" +:+ random.

(** [new AnalyticsManager()] before [init()] runs. *)
Definition fresh (sid : string) (w : World) : AnalyticsManager :=
  {| sessionId := sid; startTime := w_now w; events := [];
     isActive := true; lastActivity := w_now w;
     scrollMilestones := None; heatmapData := None;
     inactivityTimeout := None |}.

(** [init()]; [page_load] is the payload built from [window], [document],
    [navigator] and [screen]. *)
Definition init (page_load : event) (w : World) : M unit :=
  trackEvent "page_load" page_load w ;;
  startSessionTracking w ;;
  let* s := get in
  emit (LogInit (sessionId s)).

(** The global [trackAnalyticsEvent]; [analytics] is [null] when
    analytics is disabled. *)
Definition trackAnalyticsEvent (eventName : string) (eventData : event)
    (w : World) (analytics : option AnalyticsManager)
    : option AnalyticsManager * list effect :=
  match analytics with
  | Some a =>
      let r := trackEvent eventName eventData w a in
      (Some (state_of r), log_of r)
  | None => (None, [])
  end.

(** ** Runs of the object *)

(** What can happen to the queue: an event is recorded, a flush is asked
    for, or the promise of an earlier request settles. *)
Inductive action : Type :=
| Track (eventName : string) (eventData : event) (w : World)
| Flush (w : World)
| Settle (r : response).

Definition perform (a : action) : M unit :=
  match a with
  | Track eventName eventData w => trackEvent eventName eventData w
  | Flush w => sendAnalytics w
  | Settle r => sendAnalytics_settle r
  end.

Definition run (l : list action) : M unit := forEach perform l.

(** The requests and the recorded events of a log. *)
Definition fetches (o : list effect) : list request :=
  omap (fun e => match e with Fetch b => Some b | _ => None end) o.

Definition recorded (o : list effect) : list (string * event) :=
  omap (fun e => match e with LogEvent n d => Some (n, d) | _ => None end) o.

Definition failed (r : response) : bool :=
  match r with
  | Resolved status => negb (ok status)
  | Rejected => true
  end.

(** ** Vocabulary of the statements *)

Definition request_of (w : World) (s : AnalyticsManager) : request :=
  {| r_session_id := sessionId s; r_events := events s;
     r_user_info := w_user_info w |}.

Definition pushed (eventName : string) (eventData : event) (w : World)
    (s : AnalyticsManager) : AnalyticsManager :=
  set_events (fun q => q ++ [make_event eventName eventData w s]) s.

(** The events that the [Track] actions of a run append. *)
Definition tracked (s : AnalyticsManager) (l : list action) : list event :=
  omap (fun a => match a with
                 | Track n d w => Some (make_event n d w s)
                 | _ => None
                 end) l.

(** No request of the run is answered with success. *)
Definition no_success (l : list action) : bool :=
  forallb (fun a => match a with Settle r => failed r | _ => true end) l.

(** A run that only records. *)
Definition recording : Type := string * event * World.

Definition track_of (r : recording) : action :=
  Track (fst (fst r)) (snd (fst r)) (snd r).

Definition with_value (v : string) (t : Element) : Element :=
  {| el_is_field := el_is_field t; el_type := el_type t;
     el_name := el_name t; el_id := el_id t; el_value := v |}.



(** The sample [w] is at or beyond milestone [m]. *)
Definition crosses (m : Z) (w : World) : bool := js_ge (scrollPercent w) m.

(** A series of debounced scroll samples. *)
Definition scroll_samples (ws : list World) : M unit :=
  forEach trackScrollDepth ws.

(** A sample page: 2000 px of document in a 1000 px viewport. *)
Definition sample_world (t scrollY : Z) : World :=
  {| w_now := t; w_iso := "2024-01-01T00:00:00.000Z";
     w_href := "https://resume.example/"; w_gtag := false;
     w_user_info := VNull; w_scrollY := scrollY;
     w_scrollHeight := 2000; w_innerHeight := 1000 |}.

Definition sample_session : AnalyticsManager :=
  fresh "session_0_k3j9x2m1q" (sample_world 0 0).

(** The heatmap object, empty before its first use. *)
Definition heatmap_of (s : AnalyticsManager) : list (string * Z) :=
  default [] (heatmapData s).

(** The cell of pixel [(x, y)] already has a bucket. *)
Definition cell_seen (s : AnalyticsManager) (x y : Z) : bool :=
  existsb (fun k => String.eqb k (cell_key x y)) (map fst (heatmap_of s)).

(** The count of a bucket ([0] when there is none). *)
Definition count_of (key : string) (h : list (string * Z)) : Z :=
  match List.find (fun e => String.eqb (fst e) key) h with
  | Some e => snd e
  | None => 0
  end.

(** The log holds a heatmap_data event. *)
Definition emits_heatmap (o : list effect) : bool :=
  existsb (fun e => String.eqb (fst e) "heatmap_data") (recorded o).

(** A series of debounced mouse samples. *)
Definition mouse_samples (ps : list (Z * Z)) (w : World) : M unit :=
  forEach (fun p => trackMousePosition (fst p) (snd p) w) ps.

(** Twenty pixels in twenty different cells of one row. *)
Definition twenty_cells : list (Z * Z) :=
  map (fun i => (50 * Z.of_nat i, 0)) (seq 0 20).

(** Descending by count. *)
Definition desc (a b : string * Z) : Prop := snd b <= snd a.

(** ** The event loop around the inactivity timer *)



Section EventLoop.

(** The browser at each instant. *)
Variable env : Z -> World.




End EventLoop.





(** ** The engagement score as the design document words it *)

(** [min(minutesElapsed, 10) * 10 + min(eventCount, 50) * 2 +
    distinctSectionsVisited * 20], rounded, where the events are all the
    events of the session. *)
Definition spec_engagement_score (elapsed : Z) (session_events : list event) : Z :=
  round_Q (Qmin (inject_Z elapsed / inject_Z 60000) 10 * 10 +
           inject_Z (Z.of_nat (Nat.min (length session_events) 50)) * 2 +
           inject_Z (Z.of_nat (sectionsVisited session_events)) * 20)%Q.

(** ** A sample session *)

Definition sample_page_load : event :=
  <["url" := VStr "https://resume.example/"]>
    (<["referrer" := VStr ""]> ∅).

(** The session once its constructor has returned. *)
Definition sample_started : AnalyticsManager :=
  state_of (init sample_page_load (sample_world 0 0) sample_session).

Definition navigation_to (section : string) (t : Z) : recording :=
  ("navigation",
   <["target_section" := VStr section]> (<["nav_text" := VStr section]> ∅),
   sample_world t 0).

Definition click_at (t : Z) : recording :=
  ("click", <["element_type" := VStr "a"]> ∅, sample_world t 0).

(** Nine events after page_load: two visits of sections, seven clicks. *)
Definition nine_recordings : list recording :=
  [navigation_to "#about" 1000; click_at 2000; click_at 3000;
   navigation_to "#projects" 4000; click_at 5000; click_at 6000;
   click_at 7000; click_at 8000; click_at 9000].

Definition nine_events : list action := map track_of nine_recordings.

(** Ten more clicks. *)
Definition ten_clicks : list action :=
  map (fun i => track_of (click_at (10000 + 1000 * Z.of_nat i))) (seq 0 10).

(** A text field holding [v]. *)
Definition sample_field (v : string) : Element :=
  {| el_is_field := true; el_type := "text"; el_name := "email";
     el_id := "contact-email"; el_value := v |}.

(** A page exactly as tall as the viewport, at the top. *)
Definition short_page : World :=
  {| w_now := 1000; w_iso := "2024-01-01T00:00:01.000Z";
     w_href := "https://resume.example/"; w_gtag := false;
     w_user_info := VNull; w_scrollY := 0;
     w_scrollHeight := 1000; w_innerHeight := 1000 |}.

(** No comma occurs in [s]. *)
Fixpoint comma_free (s : string) : bool :=
  match s with
  | EmptyString => true
  | String c s' => negb (Ascii.eqb c ","%char) && comma_free s'
  end.

(** * The rest of the class *)

(** ** Clicks *)

(** [element.getBoundingClientRect()] *)
Record Rect : Type := {
  rect_top : Z;
  rect_left : Z;
  rect_width : Z;
  rect_height : Z;
  rect_bottom : Z;
  rect_right : Z
}.

(** The sizes [isInViewport] reads beside [window.innerHeight]. *)
Record Viewport : Type := {
  vp_innerWidth : Z;       (* window.innerWidth *)
  vp_clientWidth : Z;      (* document.documentElement.clientWidth *)
  vp_clientHeight : Z      (* document.documentElement.clientHeight *)
}.

(** The target of a click, as [handleClick] reads it. *)
Record Target : Type := {
  tg_tag : string;                   (* element.tagName.toLowerCase() *)
  tg_className : string;
  tg_id : string;
  tg_textContent : string;
  tg_rect : Rect;
  tg_nav_link : bool;                (* matches('.nav-link') *)
  tg_download_btn : bool;            (* matches('.download-btn') *)
  tg_project : bool;                 (* matches('.project-card, .project-btn') *)
  tg_skill_item : bool;              (* matches('.skill-item') *)
  tg_href : option string;           (* getAttribute('href'), null when absent *)
  tg_dataset_project : option string;  (* dataset.project *)
  tg_dataset_skill : option string     (* dataset.skill *)
}.

(** [a || b] on numbers: zero is falsy. *)
Definition num_or (a b : Z) : Z := if a =? 0 then b else a.

(** [a || b] where [a] may be undefined: undefined and the empty string
    are falsy. *)
Definition opt_or (a : option string) (b : string) : string :=
  match a with
  | Some x => str_or x b
  | None => b
  end.

Definition isInViewport (rect : Rect) (vp : Viewport) (w : World) : bool :=
  (0 <=? rect_top rect) &&
  (0 <=? rect_left rect) &&
  (rect_bottom rect <=? num_or (w_innerHeight w) (vp_clientHeight vp)) &&
  (rect_right rect <=? num_or (vp_innerWidth vp) (vp_clientWidth vp)).

Definition getElementData (element : Target) (vp : Viewport) (w : World) : event :=
  let rect := tg_rect element in
  <["element_position" :=
      VObj [("top", VNum (rect_top rect)); ("left", VNum (rect_left rect));
            ("width", VNum (rect_width rect));
            ("height", VNum (rect_height rect))]]>
    (<["in_viewport" := VBool (isInViewport (tg_rect element) vp w)]> ∅).

(** The payload of the click event: the spread of [elementData] comes
    last. *)
Definition click_data (element : Target) (clientX clientY : Z)
    (vp : Viewport) (w : World) : event :=
  getElementData element vp w ∪
  <["element_type" := VStr (tg_tag element)]>
    (<["element_class" := VStr (tg_className element)]>
       (<["element_id" := VStr (tg_id element)]>
          (<["element_text" := VStr (substring 0 100 (tg_textContent element))]>
             (<["position" := VObj [("x", VNum clientX); ("y", VNum clientY)]]>
                ∅)))).

Definition opt_value (a : option string) : value :=
  match a with
  | Some x => VStr x
  | None => VNull
  end.

Definition handleClick (element : Target) (clientX clientY : Z)
    (vp : Viewport) (w : World) : M unit :=
  trackEvent "click" (click_data element clientX clientY vp w) w ;;
  when (tg_nav_link element)
    (trackEvent "navigation"
       (<["target_section" := opt_value (tg_href element)]>
          (<["nav_text" := VStr (tg_textContent element)]> ∅)) w) ;;
  when (tg_download_btn element)
    (trackEvent "download_attempt"
       (<["button_text" := VStr (tg_textContent element)]> ∅) w) ;;
  when (tg_project element)
    (trackEvent "project_interest"
       (<["project" := VStr (opt_or (tg_dataset_project element) "unknown")]> ∅)
       w) ;;
  when (tg_skill_item element)
    (trackEvent "skill_click"
       (<["skill" := VStr (opt_or (tg_dataset_skill element)
                             (tg_textContent element))]> ∅) w).

(** ** Errors, A/B tests, funnels *)

(** The [error] listener. *)
Definition on_error (message filename : string) (lineno colno : Z)
    (w : World) : M unit :=
  trackEvent "javascript_error"
    (<["message" := VStr message]>
       (<["filename" := VStr filename]>
          (<["line" := VNum lineno]> (<["column" := VNum colno]> ∅)))) w.

Definition trackABTest (testName variant : value) (w : World) : M unit :=
  let* s := get in
  trackEvent "ab_test"
    (<["test_name" := testName]>
       (<["variant" := variant]>
          (<["session_id" := VStr (sessionId s)]> ∅))) w.

(** [success] is [true] when the caller leaves it out. *)
Definition trackFunnelStep (funnelName step : value) (success : value)
    (w : World) : M unit :=
  trackEvent "funnel_step"
    (<["funnel" := funnelName]>
       (<["step" := step]>
          (<["success" := success]>
             (<["timestamp" := VStr (w_iso w)]> ∅)))) w.

(** ** Everything that can run on the object *)

Inductive task : Type :=
| T_track (eventName : string) (eventData : event) (w : World)
| T_flush (w : World)
| T_settle (r : response)
| T_click (element : Target) (clientX clientY : Z) (vp : Viewport) (w : World)
| T_scroll_sample (w : World)
| T_mouse_sample (x y : Z) (w : World)
| T_visibility (hidden : bool) (w : World)
| T_unload (w : World)
| T_input (target : Element) (w : World)
| T_error (message filename : string) (lineno colno : Z) (w : World)
| T_qualifying (w : World)
| T_timeout (w : World)
| T_ping (sections : list (string * bool)) (w : World)
| T_abtest (testName variant : value) (w : World)
| T_funnel (funnelName step success : value) (w : World).

Definition handle (t : task) : M unit :=
  match t with
  | T_track n d w => trackEvent n d w
  | T_flush w => sendAnalytics w
  | T_settle r => sendAnalytics_settle r
  | T_click element x y vp w => handleClick element x y vp w
  | T_scroll_sample w => trackScrollDepth w
  | T_mouse_sample x y w => trackMousePosition x y w
  | T_visibility hidden w => on_visibilitychange hidden w
  | T_unload w => on_beforeunload w
  | T_input target w => on_input target w
  | T_error m f l c w => on_error m f l c w
  | T_qualifying w => resetInactivityTimer w
  | T_timeout w => inactivityExpired w
  | T_ping sections w => sessionPing (getCurrentSection sections) w
  | T_abtest n v w => trackABTest n v w
  | T_funnel f st su w => trackFunnelStep f st su w
  end.

Definition handle_all (l : list task) : M unit := forEach handle l.

(** The task is not the success of a request. *)
Definition not_success (t : task) : bool :=
  match t with
  | T_settle r => failed r
  | _ => true
  end.

(** The task is not the page becoming visible again. *)
Definition not_focus (t : task) : bool :=
  match t with
  | T_visibility false _ => false
  | _ => true
  end.

(** A property [P before after log] of one run that holds of an empty
    run and composes along consecutive runs holds of a method built
    from such runs: [holds P m]. *)
Definition holds {A} (P : AnalyticsManager -> AnalyticsManager -> list effect -> Prop)
    (m : M A) : Prop :=
  forall s, P s (state_of (m s)) (log_of (m s)).

(** The identity of the session. *)
Definition same_session (s s' : AnalyticsManager) (o : list effect) : Prop :=
  sessionId s' = sessionId s /\ startTime s' = startTime s.

(** The queue grows by what is recorded, and every request carries a
    non-empty front part of it. *)
Definition queue_grows (s s' : AnalyticsManager) (o : list effect) : Prop :=
  events s `prefix_of` events s' /\
  length (events s') = (length (events s) + length (recorded o))%nat /\
  Forall (fun b => r_events b `prefix_of` events s' /\ r_events b <> [])
    (fetches o).

(** Every request is non-empty and bears the id of the session. *)
Definition sound_requests (s s' : AnalyticsManager) (o : list effect) : Prop :=
  sessionId s' = sessionId s /\
  Forall (fun b => r_session_id b = sessionId s /\ r_events b <> [])
    (fetches o).

Definition same_lastActivity (s s' : AnalyticsManager) (o : list effect) : Prop :=
  lastActivity s' = lastActivity s.

(** The sum of the counts of a heatmap. *)
Definition total_count (h : list (string * Z)) : Z :=
  foldr (fun e acc => snd e + acc) 0 h.

(** The samples that fall in the cell of key [k]. *)
Definition samples_in (k : string) (ps : list (Z * Z)) : list (Z * Z) :=
  List.filter (fun p => String.eqb (cell_key (fst p) (snd p)) k) ps.

(** The milestones that a sample records: those it is at or beyond and
    that were not reached before. *)
Definition newly_crossed (w : World) (s : AnalyticsManager) : list Z :=
  List.filter (fun m => crosses m w && negb (milestone_seen s m)) milestones.

(** Reaching a milestone implies having reached the lower ones. *)
Definition downward_closed (s : AnalyticsManager) : Prop :=
  forall m m', In m milestones -> In m' milestones -> m <= m' ->
    milestone_seen s m' = true -> milestone_seen s m = true.

(** The character [c] does not occur in [s]. *)
Fixpoint lacks (c : ascii) (s : string) : bool :=
  match s with
  | EmptyString => true
  | String c' s' => negb (Ascii.eqb c' c) && lacks c s'
  end.

(** ** The page: storage, the global [analytics], the exported functions *)

Record Page : Type := {
  analytics_enabled : option string;     (* localStorage 'analytics_enabled' *)
  analytics : option AnalyticsManager    (* the global; null when off *)
}.

(** [new AnalyticsManager()]: the generated id, then [init()]. *)
Definition construct (random : string) (page_load : event) (w : World)
    : AnalyticsManager * list effect :=
  let r := init page_load w (fresh (generateSessionId w random) w) in
  (state_of r, log_of r).

(** The [DOMContentLoaded] listener: analytics is on unless the stored
    flag is the string ['false']. *)
Definition on_DOMContentLoaded (random : string) (page_load : event)
    (w : World) (p : Page) : Page * list effect :=
  let analyticsEnabled :=
    negb (bool_decide (analytics_enabled p = Some "false")) in
  if analyticsEnabled then
    let c := construct random page_load w in
    ({| analytics_enabled := analytics_enabled p; analytics := Some (fst c) |},
     snd c)
  else (p, []).

Definition enableAnalytics (random : string) (page_load : event)
    (w : World) (p : Page) : Page * list effect :=
  match analytics p with
  | Some a => ({| analytics_enabled := Some "true"; analytics := Some a |}, [])
  | None =>
      let c := construct random page_load w in
      ({| analytics_enabled := Some "true"; analytics := Some (fst c) |}, snd c)
  end.

(** [disableAnalytics]: a last flush, then the global is dropped. *)
Definition disableAnalytics (w : World) (p : Page) : Page * list effect :=
  match analytics p with
  | Some a =>
      ({| analytics_enabled := Some "false"; analytics := None |},
       log_of (sendAnalytics w a))
  | None => ({| analytics_enabled := Some "false"; analytics := None |}, [])
  end.

(** The global [trackAnalyticsEvent] on a page. *)
Definition page_track (eventName : string) (eventData : event) (w : World)
    (p : Page) : Page * list effect :=
  let r := trackAnalyticsEvent eventName eventData w (analytics p) in
  ({| analytics_enabled := analytics_enabled p; analytics := fst r |}, snd r).



(** Nothing but [trackScrollDepth] writes the milestones. *)
Definition same_milestones (s s' : AnalyticsManager) (o : list effect) : Prop :=
  scrollMilestones s' = scrollMilestones s.

Definition not_scroll (t : task) : bool :=
  match t with
  | T_scroll_sample _ => false
  | _ => true
  end.

(** The scroll_depth events for a list of milestones. *)
Definition scroll_depth_events (w : World) (ms : list Z) : list (string * event) :=
  map (fun m => ("scroll_depth", scroll_depth_data m w)) ms.

(** [set.add(v)] on the list of members. *)
Definition Set_add (acc : list value) (v : value) : list value :=
  if existsb (SameValueZero v) acc then acc else acc ++ [v].

(** The sections of the navigation events of a queue, with repeats. *)
Definition visited_targets (q : list event) : list value :=
  map (fun e => prop e "target_section") (List.filter is_navigation q).

(** The names of the events that a click on [element] records. *)
Definition click_event_names (element : Target) : list string :=
  "click" ::
  (if tg_nav_link element then ["navigation"] else []) ++
  (if tg_download_btn element then ["download_attempt"] else []) ++
  (if tg_project element then ["project_interest"] else []) ++
  (if tg_skill_item element then ["skill_click"] else []).

(** ** The deepest scroll *)

(** [Math.max] of two numbers: [NaN] wins, then the larger. *)
Definition num_max (a b : number) : number :=
  match a, b with
  | NaN, _ | _, NaN => NaN
  | PosInf, _ | _, PosInf => PosInf
  | NegInf, x | x, NegInf => x
  | Fin p, Fin q => if Qle_bool p q then Fin q else Fin p
  end.

(** [Math.max(...xs)]; with no argument it is -Infinity. *)
Definition Math_max (xs : list number) : number :=
  fold_left num_max xs NegInf.

Section ToNumber.

(** The conversion of a string to a number, a builtin of the language,
    is left open; so is, for the same reason, the conversion of arrays
    and objects, which goes through their conversion to a string. *)
Variable StringToNumber : string -> number.
Variable ObjectToString : value -> string.

(** [Number(v)] *)
Definition to_number (v : value) : number :=
  match v with
  | VUndefined => NaN
  | VNull => Fin 0
  | VBool b => if b then Fin 1 else Fin 0
  | VNum n => Fin (inject_Z n)
  | VStr s => StringToNumber s
  | VArr _ | VObj _ => StringToNumber (ObjectToString v)
  end.

Definition is_scroll_depth_event (e : event) : bool :=
  value_eqb (prop e "event") (VStr "scroll_depth").

Definition getMaxScrollDepth (s : AnalyticsManager) : number :=
  let scrollEvents := List.filter is_scroll_depth_event (events s) in
  Math_max (Fin 0 :: map (fun e => to_number (prop e "percentage")) scrollEvents).

End ToNumber.

(** The largest of a list of integers and [0]. *)
Definition max0 (l : list Z) : Z := fold_left Z.max l 0.

(** The milestones that some sample of a series is at or beyond. *)
Definition crossed_by (ws : list World) : list Z :=
  List.filter (fun m => existsb (crosses m) ws) milestones.

(** The percentages of the scroll_depth events of a queue. *)
Definition scroll_percentages (q : list event) : list value :=
  map (fun e => prop e "percentage") (List.filter is_scroll_depth_event q).

(** ** Sample inputs *)

Definition sample_viewport : Viewport :=
  {| vp_innerWidth := 1280; vp_clientWidth := 1265; vp_clientHeight := 1000 |}.

(** A navigation link to the section of the projects. *)
Definition sample_nav_link : Target :=
  {| tg_tag := "a"; tg_className := "nav-link"; tg_id := "";
     tg_textContent := "Projects";
     tg_rect := {| rect_top := 10; rect_left := 400; rect_width := 80;
                   rect_height := 20; rect_bottom := 30; rect_right := 480 |};
     tg_nav_link := true; tg_download_btn := false; tg_project := false;
     tg_skill_item := false; tg_href := Some "#projects";
     tg_dataset_project := None; tg_dataset_skill := None |}.

(** A click, a scroll, a failed request, typing, a timer that expires. *)
Definition sample_tasks : list task :=
  [T_click sample_nav_link 420 20 sample_viewport (sample_world 1000 0);
   T_scroll_sample (sample_world 2000 600);
   T_flush (sample_world 3000 600);
   T_settle (Resolved 500);
   T_qualifying (sample_world 4000 600);
   T_input (sample_field "x") (sample_world 5000 600);
   T_timeout (sample_world 400000 600);
   T_ping [("about", true)] (sample_world 410000 600)].

(** A conversion of strings to numbers that knows no string. *)
Definition no_number (s : string) : number := NaN.

Definition no_string (v : value) : string := "".

(** The part of the score that comes from the events and the sections. *)
Definition score_of_events (s : AnalyticsManager) : Z :=
  Z.of_nat (Nat.min (length (events s)) 50) * 2 +
  Z.of_nat (sectionsVisited (events s)) * 20.

(** * Properties *)

(** ** The monad *)

Lemma bind_eq {A B} (m : M A) (k : A -> M B) s :
  bind m k s =
  (fst (fst (k (fst (fst (m s))) (state_of (m s)))),
   state_of (k (fst (fst (m s))) (state_of (m s))),
   log_of (m s) ++ log_of (k (fst (fst (m s))) (state_of (m s)))).
Proof.
  unfold bind, state_of, log_of.
  destruct (m s) as [[a s1] o1]; simpl.
  destruct (k a s1) as [[b s2] o2]; reflexivity.
Qed.

Lemma state_bind {A B} (m : M A) (k : A -> M B) s :
  state_of (bind m k s) = state_of (k (fst (fst (m s))) (state_of (m s))).
Proof. rewrite bind_eq. reflexivity. Qed.

Lemma log_bind {A B} (m : M A) (k : A -> M B) s :
  log_of (bind m k s) =
  log_of (m s) ++ log_of (k (fst (fst (m s))) (state_of (m s))).
Proof. rewrite bind_eq. reflexivity. Qed.

Lemma forEach_cons {A} (f : A -> M unit) x l s :
  forEach f (x :: l) s =
  (fst (fst (forEach f l (state_of (f x s)))),
   state_of (forEach f l (state_of (f x s))),
   log_of (f x s) ++ log_of (forEach f l (state_of (f x s)))).
Proof. simpl. rewrite bind_eq. reflexivity. Qed.

Lemma state_forEach_app {A} (f : A -> M unit) l1 l2 s :
  state_of (forEach f (l1 ++ l2) s) =
  state_of (forEach f l2 (state_of (forEach f l1 s))).
Proof.
  revert s. induction l1 as [|x l1 IH]; intros s; [reflexivity|].
  simpl. rewrite !state_bind. apply IH.
Qed.

Lemma log_forEach_app {A} (f : A -> M unit) l1 l2 s :
  log_of (forEach f (l1 ++ l2) s) =
  log_of (forEach f l1 s) ++ log_of (forEach f l2 (state_of (forEach f l1 s))).
Proof.
  revert s. induction l1 as [|x l1 IH]; intros s; [reflexivity|].
  simpl. rewrite !log_bind, !state_bind, IH, app_assoc. reflexivity.
Qed.

Lemma fetches_app o1 o2 : fetches (o1 ++ o2) = fetches o1 ++ fetches o2.
Proof. apply omap_app. Qed.

Lemma recorded_app o1 o2 : recorded (o1 ++ o2) = recorded o1 ++ recorded o2.
Proof. apply omap_app. Qed.

(** ** [sendAnalytics] and [trackEvent], step by step *)

Lemma sendAnalytics_eq w s :
  sendAnalytics w s =
  (tt, s, match events s with [] => [] | _ => [Fetch (request_of w s)] end).
Proof.
  unfold sendAnalytics. rewrite bind_eq. cbn.
  destruct (events s) eqn:E; cbn; [reflexivity|].
  unfold request_of. rewrite E. reflexivity.
Qed.

Lemma trackEvent_eq n d w s :
  trackEvent n d w s =
  (tt, pushed n d w s,
   (if (10 <=? length (events s) + 1)%nat
    then [Fetch (request_of w (pushed n d w s))] else []) ++
   (if w_gtag w then [Gtag n d] else []) ++ [LogEvent n d]).
Proof.
  unfold trackEvent, when. rewrite !bind_eq.
  cbn [get modify emit fst snd state_of log_of app].
  fold (pushed n d w s).
  assert (L : length (events (pushed n d w s)) = (length (events s) + 1)%nat).
  { cbn. rewrite length_app. reflexivity. }
  rewrite L.
  destruct (10 <=? length (events s) + 1)%nat eqn:E.
  - rewrite sendAnalytics_eq.
    destruct (events (pushed n d w s)) eqn:E'; [cbn in L; lia|].
    destruct (w_gtag w); reflexivity.
  - destruct (w_gtag w); reflexivity.
Qed.

(** ** Runs: what the queue holds and what is sent *)

Lemma make_event_sid n d w s s' :
  sessionId s = sessionId s' -> make_event n d w s = make_event n d w s'.
Proof. intros H. unfold make_event, envelope. rewrite H. reflexivity. Qed.

Lemma tracked_sid s s' l :
  sessionId s = sessionId s' -> tracked s l = tracked s' l.
Proof.
  intros H. unfold tracked. induction l as [|a l IH]; [reflexivity|].
  destruct a; cbn; rewrite ?IH, ?(make_event_sid _ _ _ s s' H); reflexivity.
Qed.

Lemma settle_failed r s :
  failed r = true -> sendAnalytics_settle r s = (tt, s, log_of (sendAnalytics_settle r s)).
Proof.
  destruct r as [status|]; cbn; [|reflexivity].
  intros H. apply negb_true_iff in H. rewrite H. reflexivity.
Qed.

Lemma settle_ok status s :
  ok status = true ->
  events (state_of (sendAnalytics_settle (Resolved status) s)) = [].
Proof. intros H. cbn. rewrite H. reflexivity. Qed.

Lemma perform_sessionId a s : sessionId (state_of (perform a s)) = sessionId s.
Proof.
  destruct a as [n d w|w|r]; cbn [perform].
  - rewrite trackEvent_eq. reflexivity.
  - rewrite sendAnalytics_eq. reflexivity.
  - destruct r as [status|]; cbn; [|reflexivity].
    destruct (ok status); reflexivity.
Qed.

Lemma run_sessionId l s : sessionId (state_of (run l s)) = sessionId s.
Proof.
  revert s. induction l as [|a l IH]; intros s; [reflexivity|].
  unfold run in *. rewrite forEach_cons. cbn [state_of fst snd].
  fold (state_of (forEach perform l (state_of (perform a s)))).
  rewrite IH. apply perform_sessionId.
Qed.

(** While no request succeeds, the queue only grows: it holds what it
    held, followed by what was recorded since. *)
Lemma run_events l s :
  no_success l = true ->
  events (state_of (run l s)) = events s ++ tracked s l.
Proof.
  revert s. induction l as [|a l IH]; intros s H.
  - cbn. rewrite app_nil_r. reflexivity.
  - cbn in H. apply andb_true_iff in H as [Ha Hl].
    unfold run in *. rewrite forEach_cons. cbn [state_of fst snd].
    fold (state_of (forEach perform l (state_of (perform a s)))).
    rewrite (IH _ Hl).
    rewrite (tracked_sid _ s) by apply perform_sessionId.
    destruct a as [n d w|w|r]; cbn [perform tracked omap].
    + rewrite trackEvent_eq. cbn. rewrite <- app_assoc. reflexivity.
    + rewrite sendAnalytics_eq. reflexivity.
    + rewrite (settle_failed _ _ Ha). reflexivity.
Qed.

Lemma no_success_tracks l : no_success (map track_of l) = true.
Proof. induction l as [|r l IH]; [reflexivity|]. cbn. exact IH. Qed.

Lemma fetches_trackEvent n d w s :
  fetches (log_of (trackEvent n d w s)) =
  if (10 <=? length (events s) + 1)%nat
  then [request_of w (pushed n d w s)] else [].
Proof.
  rewrite trackEvent_eq. cbn [log_of snd].
  destruct (10 <=? length (events s) + 1)%nat, (w_gtag w); reflexivity.
Qed.

(** Below the threshold nothing is sent. *)
Lemma tracks_quiet l s :
  (length (events s) + length l < 10)%nat ->
  fetches (log_of (run (map track_of l) s)) = [].
Proof.
  revert s. induction l as [|r l IH]; intros s H; [reflexivity|].
  cbn [map]. unfold run in *. rewrite forEach_cons. cbn [log_of snd].
  fold (log_of (forEach perform (map track_of l) (state_of (perform (track_of r) s)))).
  rewrite fetches_app, IH.
  - cbn [perform track_of]. rewrite fetches_trackEvent.
    cbn [length] in H.
    destruct (10 <=? length (events s) + 1)%nat eqn:E; [|reflexivity].
    apply Nat.leb_le in E. lia.
  - cbn [perform track_of]. rewrite trackEvent_eq. cbn.
    rewrite length_app. cbn in *. lia.
Qed.

(** C1.  Recording fills the queue silently and the event that brings it
    to ten sends it: from a queue of fewer than ten events, record the
    events that bring it to exactly ten.  No proper prefix of the run
    performs a request; the whole run performs exactly one, whose body is
    the whole queue, ten events, in order; and once that request is
    answered with a 2xx status the queue is empty. *)
Theorem batch_flush_at_ten (s : AnalyticsManager) (l : list recording) :
  l <> [] ->
  (length (events s) + length l = 10)%nat ->
  (forall n, (n < length l)%nat ->
     fetches (log_of (run (map track_of (take n l)) s)) = []) /\
  (exists b,
     fetches (log_of (run (map track_of l) s)) = [b] /\
     r_session_id b = sessionId s /\
     r_events b = events s ++ tracked s (map track_of l) /\
     r_events b = events (state_of (run (map track_of l) s)) /\
     length (r_events b) = 10%nat) /\
  (forall status, ok status = true ->
     events (state_of (sendAnalytics_settle (Resolved status)
                         (state_of (run (map track_of l) s)))) = []).
Proof.
  intros Hne Hlen. split; [|split].
  - intros n Hn. apply tracks_quiet. rewrite length_take. lia.
  - destruct (exists_last Hne) as [l0 [r ->]].
    rewrite length_app in Hlen. cbn in Hlen.
    rewrite map_app. cbn [map].
    unfold run. rewrite log_forEach_app, fetches_app.
    fold (run (map track_of l0) s).
    rewrite tracks_quiet by lia. cbn [app].
    set (s1 := state_of (run (map track_of l0) s)).
    assert (E1 : events s1 = events s ++ tracked s (map track_of l0)).
    { apply run_events, no_success_tracks. }
    assert (L1 : length (events s1) = 9%nat).
    { rewrite E1, length_app. unfold tracked.
      assert (length (omap (fun a => match a with
                 | Track n d w => Some (make_event n d w s)
                 | _ => None end) (map track_of l0)) = length l0) as ->; [|lia].
      clear. induction l0 as [|x l0 IH]; cbn; [reflexivity|]. rewrite IH. reflexivity. }
    cbn [forEach]. rewrite log_bind. cbn [ret log_of snd]. rewrite app_nil_r.
    fold (log_of (perform (track_of r) s1)).
    cbn [perform track_of]. rewrite fetches_trackEvent, L1. cbn [Nat.leb Nat.add].
    eexists. split; [reflexivity|].
    assert (Ev : events (pushed (fst (fst r)) (snd (fst r)) (snd r) s1) =
                 events s ++ tracked s (map track_of l0 ++ [track_of r])).
    { cbn. rewrite E1. unfold tracked at 2. rewrite omap_app. cbn.
      rewrite <- app_assoc.
      rewrite (make_event_sid _ _ _ s1 s) by apply run_sessionId. reflexivity. }
    cbn [request_of r_session_id r_events].
    split; [apply run_sessionId|]. split; [exact Ev|]. split.
    + fold (run (map track_of l0 ++ [track_of r]) s).
      rewrite run_events; [exact Ev|].
      change [track_of r] with (map track_of [r]).
      rewrite <- map_app. apply no_success_tracks.
    + cbn. rewrite length_app, L1. reflexivity.
  - intros status Hok. apply settle_ok, Hok.
Qed.

Lemma batch_flush_at_ten_witness :
  nine_recordings <> [] /\
  (length (events sample_started) + length nine_recordings = 10)%nat /\
  fetches (log_of (run (map track_of (take 8 nine_recordings)) sample_started)) = [] /\
  (exists b,
     fetches (log_of (run (map track_of nine_recordings) sample_started)) = [b] /\
     length (r_events b) = 10%nat) /\
  events (state_of (sendAnalytics_settle (Resolved 200)
            (state_of (run (map track_of nine_recordings) sample_started)))) = [].
Proof.
  assert (H1 : nine_recordings <> []) by discriminate.
  assert (H2 : (length (events sample_started) + length nine_recordings = 10)%nat)
    by reflexivity.
  destruct (batch_flush_at_ten sample_started nine_recordings H1 H2)
    as (Hq & (b & Hb & _ & _ & _ & Hl) & He).
  split; [exact H1|]. split; [exact H2|]. split.
  - apply (Hq 8%nat). cbn. lia.
  - split; [exists b; split; assumption|]. apply He. reflexivity.
Defined.

(** Retention when no other request succeeds.  Take a non-empty queue
    and flush it: the request carries the queue.  While the request is in
    flight more events may be recorded ([l0]); then the request fails
    (the promise rejects, or the status is not 2xx).  The failure changes
    nothing in the object, whatever its state.  After any further run
    [l] in which no request succeeds, the next flush carries the retained
    events followed by all events recorded in between, and a 2xx answer
    to it empties the queue. *)
Theorem failed_flush_retains (s : AnalyticsManager) (w w' : World)
    (r : response) (l0 l : list action) :
  events s <> [] ->
  failed r = true ->
  no_success l0 = true ->
  no_success l = true ->
  let s1 := state_of (run l0 (state_of (sendAnalytics w s))) in
  let s2 := state_of (sendAnalytics_settle r s1) in
  let s3 := state_of (run l s2) in
  fetches (log_of (sendAnalytics w s)) = [request_of w s] /\
  (forall q, state_of (sendAnalytics_settle r q) = q) /\
  events s2 = events s ++ tracked s l0 /\
  events s3 = events s ++ tracked s l0 ++ tracked s l /\
  (exists b,
     fetches (log_of (sendAnalytics w' s3)) = [b] /\
     r_events b = events s ++ tracked s l0 ++ tracked s l) /\
  (forall status, ok status = true ->
     events (state_of (sendAnalytics_settle (Resolved status)
                         (state_of (sendAnalytics w' s3)))) = []).
Proof.
  intros Hne Hr Hl0 Hl s1 s2 s3.
  assert (E0 : state_of (sendAnalytics w s) = s)
    by (rewrite sendAnalytics_eq; reflexivity).
  assert (E2 : s2 = s1).
  { subst s2. rewrite (settle_failed _ _ Hr). reflexivity. }
  assert (E1 : events s1 = events s ++ tracked s l0).
  { subst s1. rewrite E0. apply run_events, Hl0. }
  assert (S1 : sessionId s1 = sessionId s).
  { subst s1. rewrite E0. apply run_sessionId. }
  assert (E3 : events s3 = events s ++ tracked s l0 ++ tracked s l).
  { subst s3. rewrite run_events by exact Hl. rewrite E2, E1.
    rewrite (tracked_sid s1 s) by exact S1. rewrite <- app_assoc. reflexivity. }
  split; [|split; [|split; [|split; [|split]]]].
  - rewrite sendAnalytics_eq. cbn.
    destruct (events s); [congruence|reflexivity].
  - intros q. rewrite (settle_failed _ _ Hr). reflexivity.
  - rewrite E2. exact E1.
  - exact E3.
  - exists (request_of w' s3). split; [|exact E3].
    rewrite sendAnalytics_eq. cbn.
    destruct (events s3) eqn:E; [|reflexivity].
    destruct (events s); [congruence|discriminate].
  - intros status Hok. apply settle_ok, Hok.
Qed.

Lemma failed_flush_retains_witness :
  events sample_started <> [] /\
  failed Rejected = true /\
  no_success [track_of (click_at 2000)] = true /\
  no_success [track_of (click_at 3000); Settle (Resolved 503)] = true /\
  exists b,
    fetches (log_of (sendAnalytics (sample_world 5000 0)
      (state_of (run [track_of (click_at 3000); Settle (Resolved 503)]
         (state_of (sendAnalytics_settle Rejected
            (state_of (run [track_of (click_at 2000)]
               (state_of (sendAnalytics (sample_world 1000 0)
                  sample_started)))))))))) = [b] /\
    r_events b =
      events sample_started ++
      tracked sample_started [track_of (click_at 2000)] ++
      tracked sample_started [track_of (click_at 3000); Settle (Resolved 503)].
Proof.
  assert (H1 : events sample_started <> []) by discriminate.
  assert (H2 : failed Rejected = true) by reflexivity.
  assert (H3 : no_success [track_of (click_at 2000)] = true) by reflexivity.
  assert (H4 : no_success [track_of (click_at 3000); Settle (Resolved 503)] = true)
    by reflexivity.
  destruct (failed_flush_retains sample_started (sample_world 1000 0)
              (sample_world 5000 0) Rejected _ _ H1 H2 H3 H4)
    as (_ & _ & _ & _ & Hb & _).
  repeat (split; [assumption|]). exact Hb.
Defined.

Lemma tracked_length s (l : list recording) :
  length (tracked s (map track_of l)) = length l.
Proof.
  unfold tracked. induction l as [|x l IH]; cbn; [reflexivity|].
  rewrite IH. reflexivity.
Qed.

Lemma tracked_app s l1 l2 : tracked s (l1 ++ l2) = tracked s l1 ++ tracked s l2.
Proof. unfold tracked. apply omap_app. Qed.

Lemma run_track r s :
  run [track_of r] s = trackEvent (fst (fst r)) (snd (fst r)) (snd r) s.
Proof.
  unfold run. cbn [forEach perform track_of]. rewrite bind_eq.
  rewrite trackEvent_eq. cbn [ret state_of log_of fst snd]. rewrite app_nil_r.
  reflexivity.
Qed.

(** Two requests in flight.  With nine events queued, a recording posts a
    first request and the next recording a second one, which holds the
    events of the first and the new event.  When the second fails the
    queue is still its batch; a 2xx answer to the first then empties the
    queue. *)
Lemma overlapping_requests (s : AnalyticsManager) (l : list recording)
    (x y : recording) :
  (length (events s) + length l = 9)%nat ->
  let s10 := state_of (run (map track_of (l ++ [x])) s) in
  let r := run (map track_of (l ++ [x]) ++ [track_of y]) s in
  let first := request_of (snd x) s10 in
  let second := request_of (snd y) (state_of r) in
  fetches (log_of r) = [first; second] /\
  length (r_events first) = 10%nat /\
  r_events second = r_events first ++ tracked s [track_of y] /\
  forall resp, failed resp = true ->
    events (state_of (sendAnalytics_settle resp (state_of r))) = r_events second /\
    forall status, ok status = true ->
      events (state_of (sendAnalytics_settle (Resolved status)
                (state_of (sendAnalytics_settle resp (state_of r))))) = [].
Proof.
  intros Hlen s10 r first second.
  assert (state_app : forall l1 l2 s0,
            state_of (run (l1 ++ l2) s0) = state_of (run l2 (state_of (run l1 s0))))
    by (intros; apply state_forEach_app).
  assert (log_app : forall l1 l2 s0,
            log_of (run (l1 ++ l2) s0) =
            log_of (run l1 s0) ++ log_of (run l2 (state_of (run l1 s0))))
    by (intros; apply log_forEach_app).
  assert (E9 : events (state_of (run (map track_of l) s)) =
               events s ++ tracked s (map track_of l))
    by apply run_events, no_success_tracks.
  assert (L9 : length (events (state_of (run (map track_of l) s))) = 9%nat)
    by (rewrite E9, length_app, tracked_length; exact Hlen).
  assert (S10 : s10 = pushed (fst (fst x)) (snd (fst x)) (snd x)
                        (state_of (run (map track_of l) s))).
  { unfold s10. rewrite map_app, state_app. cbn [map].
    rewrite run_track, trackEvent_eq. reflexivity. }
  assert (E10 : events s10 = events s ++ tracked s (map track_of (l ++ [x])))
    by apply run_events, no_success_tracks.
  assert (L10 : length (events s10) = 10%nat).
  { rewrite E10, length_app, tracked_length, length_app. cbn [length]. lia. }
  assert (Sr : state_of r = pushed (fst (fst y)) (snd (fst y)) (snd y) s10).
  { unfold r. rewrite state_app. fold s10.
    rewrite run_track, trackEvent_eq. reflexivity. }
  assert (Er : events (state_of r) = events s10 ++ tracked s [track_of y]).
  { unfold r. rewrite run_events.
    - rewrite tracked_app, app_assoc, <- E10. reflexivity.
    - change [track_of y] with (map track_of [y]). rewrite <- map_app.
      apply no_success_tracks. }
  split; [|split; [exact L10|split; [exact Er|]]].
  - unfold r. rewrite log_app, fetches_app. fold s10.
    rewrite map_app, log_app, fetches_app. cbn [map].
    rewrite tracks_quiet by lia. rewrite !run_track, !fetches_trackEvent.
    rewrite L9, L10. cbn [Nat.add Nat.leb app].
    unfold first, second. rewrite Sr, S10. reflexivity.
  - intros resp Hf. rewrite (settle_failed _ _ Hf). cbn [state_of fst].
    split; [reflexivity|]. intros status Hok. apply settle_ok, Hok.
Qed.

(** C3, at an input where the code departs from it.  Nine events are
    queued (page_load and eight more).  A tenth is recorded and posts a
    first request, with ten events; an eleventh, a visit of the section
    [#contact], is recorded and posts a second request, with eleven,
    while the first is in flight.  The second request fails: the queue
    still holds the eleven events that were in it at flush time.  Then
    the first request is answered 200, and the queue is emptied whole.
    The eleventh event, which the first request does not hold, was
    carried by the failed request only; it is no longer in the queue, a
    flush now posts nothing, and the next request, after a further
    recording, carries that recording alone. *)
Theorem failed_flush_lost_on_overlap :
  let eleventh := track_of (navigation_to "#contact" 10000) in
  let twelfth := track_of (click_at 11000) in
  let s9 := state_of (run (map track_of (take 8 nine_recordings)) sample_started) in
  let r := run (nine_events ++ [eleventh]) sample_started in
  let first := request_of (sample_world 9000 0)
                 (state_of (run nine_events sample_started)) in
  let second := request_of (sample_world 10000 0) (state_of r) in
  let s_failed := state_of (sendAnalytics_settle Rejected (state_of r)) in
  let s_ok := state_of (sendAnalytics_settle (Resolved 200) s_failed) in
  let later := run [twelfth; Flush (sample_world 12000 0)] s_ok in
  length (events s9) = 9%nat /\
  fetches (log_of r) = [first; second] /\
  length (r_events first) = 10%nat /\
  r_events second = r_events first ++ tracked sample_started [eleventh] /\
  map (fun e => prop e "target_section") (tracked sample_started [eleventh]) =
    [VStr "#contact"] /\
  forallb (fun e => negb (value_eqb (prop e "target_section") (VStr "#contact")))
    (r_events first) = true /\
  events s_failed = r_events second /\
  events s_ok = [] /\
  fetches (log_of (sendAnalytics (sample_world 11000 0) s_ok)) = [] /\
  map r_events (fetches (log_of later)) = [tracked sample_started [twelfth]].
Proof.
  intros eleventh twelfth s9 r first second s_failed s_ok later.
  assert (log_cons : forall a l s0,
            log_of (run (a :: l) s0) =
            log_of (perform a s0) ++ log_of (run l (state_of (perform a s0))))
    by (intros; unfold run; rewrite forEach_cons; reflexivity).
  assert (L1 : (length (events sample_started) +
                length (take 8 nine_recordings) = 9)%nat) by reflexivity.
  destruct (overlapping_requests sample_started (take 8 nine_recordings)
              (click_at 9000) (navigation_to "#contact" 10000) L1) as (F & L & E & S).
  destruct (S Rejected eq_refl) as [Sf So]. specialize (So 200 eq_refl).
  change (events s_ok = []) in So.
  split; [reflexivity|]. split; [exact F|]. split; [exact L|].
  split; [exact E|]. split; [vm_compute; reflexivity|].
  split; [vm_compute; reflexivity|]. split; [exact Sf|]. split; [exact So|].
  split.
  - rewrite sendAnalytics_eq. cbn [log_of snd]. rewrite So. reflexivity.
  - unfold later. rewrite log_cons, fetches_app.
    cbn [perform twelfth track_of]. rewrite fetches_trackEvent, So.
    cbn [length Nat.add Nat.leb app].
    rewrite log_cons, fetches_app. cbn [perform run forEach ret log_of snd].
    rewrite sendAnalytics_eq, trackEvent_eq. cbn [state_of log_of fst snd].
    unfold pushed at 1. cbn [events set_events]. rewrite So.
    cbn [app fetches map request_of r_events].

    rewrite app_nil_r.
    change (fetches [Fetch ?b]) with [b].
    cbn [map request_of r_events]. unfold pushed.
    rewrite (make_event_sid _ _ _ s_ok sample_started).
    + cbn [events set_events]. rewrite So. reflexivity.
    + unfold s_ok, s_failed, r.
      change (sendAnalytics_settle ?x) with (perform (Settle x)).
      rewrite !perform_sessionId. apply run_sessionId.
Qed.

(** ** The envelope and the payload *)

Lemma envelope_lookups n w s :
  envelope n w s !! "event" = Some (VStr n) /\
  envelope n w s !! "session_id" = Some (VStr (sessionId s)) /\
  envelope n w s !! "timestamp" = Some (VStr (w_iso w)) /\
  envelope n w s !! "page_url" = Some (VStr (w_href w)).
Proof. unfold envelope. repeat split; simplify_map_eq; reflexivity. Qed.

Lemma make_event_lookup n d w s k :
  make_event n d w s !! k =
  match d !! k with Some v => Some v | None => envelope n w s !! k end.
Proof.
  unfold make_event. destruct (d !! k) as [v|] eqn:E.
  - apply lookup_union_Some_l, E.
  - apply lookup_union_r, E.
Qed.

(** C9.  The payload is spread after the envelope, so it wins.
    [trackAnalyticsEvent name payload] on a live session appends one
    event to the queue; each property of that event is the payload's when
    the payload has it and the envelope's otherwise.  The envelope is the
    event name, the session id, the timestamp taken at capture and the
    page URL.  A payload with [session_id] "x" therefore yields an event
    whose session id is "x", whatever the session's own id. *)
Theorem payload_overrides_envelope (n : string) (d : event) (w : World)
    (a : AnalyticsManager) (k : string) :
  let e := make_event n d w a in
  (exists a', fst (trackAnalyticsEvent n d w (Some a)) = Some a' /\
              events a' = events a ++ [e]) /\
  e !! k = match d !! k with Some v => Some v | None => envelope n w a !! k end /\
  (envelope n w a !! "event" = Some (VStr n) /\
   envelope n w a !! "session_id" = Some (VStr (sessionId a)) /\
   envelope n w a !! "timestamp" = Some (VStr (w_iso w)) /\
   envelope n w a !! "page_url" = Some (VStr (w_href w))) /\
  prop (make_event n (<["session_id" := VStr "x"]> d) w a) "session_id" = VStr "x".
Proof.
  intros e. split; [|split; [|split]].
  - eexists. split; [reflexivity|]. rewrite trackEvent_eq. reflexivity.
  - apply make_event_lookup.
  - apply envelope_lookups.
  - unfold prop. rewrite make_event_lookup, lookup_insert_eq. reflexivity.
Qed.

(** ** Form fields *)

Lemma has_value_nonempty v : v <> "" -> (0 <? String.length v)%nat = true.
Proof. destruct v; [congruence|reflexivity]. Qed.

Lemma has_value_eqb v : (0 <? String.length v)%nat = negb (String.eqb v "").
Proof. destruct v; reflexivity. Qed.

(** C8.  A form_interaction event tells the type of the field, its name
    (its id when the name is empty) and whether it holds text, and nothing
    about the text.  For every contents [v1] of the field the payload has
    exactly three properties: [element_type], [element_name] and
    [has_value], which is true when [v1] is not empty and false when it
    is; the listener records that one event when the target is an input
    or a textarea and nothing otherwise.  Two runs of the listener that
    differ only in the contents of the field, both empty or both not,
    end in the same state with the same log. *)
Theorem form_interaction_hides_value (t : Element) (v1 v2 : string)
    (w : World) (s : AnalyticsManager) :
  form_interaction_data (with_value v1 t) =
    <["element_type" := VStr (el_type t)]>
      (<["element_name" := VStr (str_or (el_name t) (el_id t))]>
         (<["has_value" := VBool (negb (String.eqb v1 ""))]> ∅)) /\
  (form_interaction_data (with_value v1 t) !! "has_value" = Some (VBool true)
   <-> v1 <> "") /\
  (form_interaction_data (with_value v1 t) !! "has_value" = Some (VBool false)
   <-> v1 = "") /\
  recorded (log_of (on_input (with_value v1 t) w s)) =
    (if el_is_field t
     then [("form_interaction", form_interaction_data (with_value v1 t))]
     else []) /\
  ((v1 = "" <-> v2 = "") ->
   on_input (with_value v1 t) w s = on_input (with_value v2 t) w s).
Proof.
  assert (D : forall v,
            form_interaction_data (with_value v t) =
            <["element_type" := VStr (el_type t)]>
              (<["element_name" := VStr (str_or (el_name t) (el_id t))]>
                 (<["has_value" := VBool (negb (String.eqb v ""))]> ∅))).
  { intros v. unfold form_interaction_data.
    cbn [with_value el_type el_name el_id el_value].
    rewrite has_value_eqb. reflexivity. }
  assert (L : form_interaction_data (with_value v1 t) !! "has_value" =
              Some (VBool (negb (String.eqb v1 "")))).
  { rewrite D. rewrite lookup_insert_ne by discriminate.
    rewrite lookup_insert_ne by discriminate. apply lookup_insert_eq. }
  split; [apply D|]. split; [|split; [|split]].
  - rewrite L. destruct (String.eqb_spec v1 ""); cbn; split;
      congruence.
  - rewrite L. destruct (String.eqb_spec v1 ""); cbn; split;
      congruence.
  - unfold on_input, when. cbn [with_value el_is_field].
    destruct (el_is_field t); [|reflexivity].
    rewrite trackEvent_eq. cbn [log_of snd]. rewrite !recorded_app.
    destruct (10 <=? _)%nat, (w_gtag w); reflexivity.
  - intros H. unfold on_input. cbn [with_value el_is_field].
    rewrite (D v1), (D v2).
    assert (E : String.eqb v1 "" = String.eqb v2 "").
    { destruct (String.eqb_spec v1 ""), (String.eqb_spec v2 "");
        try reflexivity; tauto. }
    rewrite E. reflexivity.
Qed.

Lemma form_interaction_hides_value_witness :
  ("alice@example.org" = "" <-> "bob" = "") /\
  on_input (with_value "alice@example.org" (sample_field "")) (sample_world 1000 0)
    sample_started =
  on_input (with_value "bob" (sample_field "")) (sample_world 1000 0)
    sample_started /\
  form_interaction_data (with_value "" (sample_field "x")) !! "has_value" =
    Some (VBool false) /\
  form_interaction_data (with_value "bob" (sample_field "")) !! "has_value" =
    Some (VBool true).
Proof.
  assert (H : "alice@example.org" = "" <-> "bob" = "")
    by (split; discriminate).
  split; [exact H|]. split; [|split].
  - exact (proj2 (proj2 (proj2 (proj2
      (form_interaction_hides_value (sample_field "") "alice@example.org" "bob"
         (sample_world 1000 0) sample_started)))) H).
  - apply (proj1 (proj2 (proj2
      (form_interaction_hides_value (sample_field "x") "" ""
         (sample_world 1000 0) sample_started)))). reflexivity.
  - apply (proj1 (proj2
      (form_interaction_hides_value (sample_field "") "bob" "bob"
         (sample_world 1000 0) sample_started))). discriminate.
Defined.

(** ** Scroll depth *)

Lemma scrollPercent_NaN w :
  w_scrollHeight w = w_innerHeight w -> w_scrollY w = 0 -> scrollPercent w = NaN.
Proof.
  intros Hh Hy. unfold scrollPercent, js_div. rewrite Hh, Hy, Z.sub_diag.
  reflexivity.
Qed.

(** C10.  The division of [trackScrollDepth] is unguarded.  On a page
    exactly as tall as the viewport, scrolled to the top, the percentage
    is 0/0 = NaN; [NaN >= milestone] is false for every milestone, so the
    call records nothing, sends nothing and leaves the object as it was.
    The call returns normally: a division raises no exception. *)
Theorem scroll_depth_nan (w : World) (s : AnalyticsManager) :
  w_scrollHeight w = w_innerHeight w ->
  w_scrollY w = 0 ->
  scrollPercent w = NaN /\
  Forall (fun milestone => js_ge (scrollPercent w) milestone = false) milestones /\
  trackScrollDepth w s = (tt, s, []).
Proof.
  intros Hh Hy. pose proof (scrollPercent_NaN w Hh Hy) as E.
  split; [exact E|]. split.
  - rewrite E. repeat constructor.
  - unfold trackScrollDepth. rewrite E. reflexivity.
Qed.

Lemma scroll_depth_nan_witness :
  w_scrollHeight short_page = w_innerHeight short_page /\
  w_scrollY short_page = 0 /\
  scrollPercent short_page = NaN /\
  trackScrollDepth short_page sample_started = (tt, sample_started, []).
Proof.
  assert (H1 : w_scrollHeight short_page = w_innerHeight short_page) by reflexivity.
  assert (H2 : w_scrollY short_page = 0) by reflexivity.
  destruct (scroll_depth_nan short_page sample_started H1 H2) as (Hn & _ & Ht).
  repeat split; assumption.
Defined.

Example cell_key_120_80 : cell_key 120 80 = "2,1".
Proof. vm_compute. reflexivity. Qed.

(** *** One milestone, one sample *)

Lemma trackEvent_fields n d w s :
  isActive (state_of (trackEvent n d w s)) = isActive s /\
  inactivityTimeout (state_of (trackEvent n d w s)) = inactivityTimeout s /\
  scrollMilestones (state_of (trackEvent n d w s)) = scrollMilestones s /\
  heatmapData (state_of (trackEvent n d w s)) = heatmapData s /\
  startTime (state_of (trackEvent n d w s)) = startTime s.
Proof. rewrite trackEvent_eq. repeat split. Qed.

Lemma recorded_trackEvent n d w s :
  recorded (log_of (trackEvent n d w s)) = [(n, d)].
Proof.
  rewrite trackEvent_eq. cbn [log_of snd].
  destruct (10 <=? _)%nat, (w_gtag w); reflexivity.
Qed.



Lemma on_milestone_seen pct w m s m' :
  milestone_seen (state_of (on_milestone pct w m s)) m' =
  milestone_seen s m' || ((m =? m') && js_ge pct m).
Proof.
  unfold on_milestone, when. rewrite state_bind. cbn [get fst state_of snd].
  destruct (js_ge pct m) eqn:G; cbn [andb].
  2:{ cbn. rewrite andb_false_r, orb_false_r. reflexivity. }
  rewrite andb_true_r.
  destruct (milestone_seen s m) eqn:Seen; cbn [negb].
  - cbn. destruct (Z.eqb_spec m m') as [<-|]; [|rewrite orb_false_r; reflexivity].
    rewrite Seen. reflexivity.
  - rewrite !state_bind. cbn [modify fst state_of snd].
    unfold milestone_seen.
    destruct (trackEvent_fields "scroll_depth" (scroll_depth_data m w) w
       (set_scrollMilestones
          (Some (<[m:=true]> (default ∅ (scrollMilestones
             (set_scrollMilestones (Some (default ∅ (scrollMilestones s))) s)))))
          (set_scrollMilestones (Some (default ∅ (scrollMilestones s))) s)))
      as (_ & _ & -> & _).
    cbn [scrollMilestones set_scrollMilestones default].
    destruct (Z.eqb_spec m m') as [<-|Hne].
    + rewrite lookup_insert_eq. cbn. rewrite orb_true_r. reflexivity.
    + rewrite lookup_insert_ne by exact Hne. rewrite orb_false_r.
      destruct (scrollMilestones s); cbn; [reflexivity|].
      rewrite lookup_empty. reflexivity.
Qed.


(** *** One sample, all milestones *)

Lemma forEach_milestones_seen pct w ml s m' :
  milestone_seen (state_of (forEach (on_milestone pct w) ml s)) m' =
  milestone_seen s m' || (existsb (Z.eqb m') ml && js_ge pct m').
Proof.
  revert s. induction ml as [|m ml IH]; intros s.
  - cbn. rewrite orb_false_r. reflexivity.
  - cbn [forEach]. rewrite state_bind, IH, on_milestone_seen. cbn [existsb].
    rewrite (Z.eqb_sym m' m).
    destruct (Z.eqb_spec m m') as [->|]; cbn [andb orb].
    + destruct (milestone_seen s m'), (js_ge pct m'), (existsb _ ml); reflexivity.
    + rewrite orb_false_r. reflexivity.
Qed.


Lemma trackScrollDepth_seen w s m :
  milestone_seen (state_of (trackScrollDepth w s)) m =
  milestone_seen s m || (existsb (Z.eqb m) milestones && crosses m w).
Proof. apply forEach_milestones_seen. Qed.


(** *** A series of samples *)





(** ** Heatmap *)

Lemma trackMousePosition_eq x y w s :
  let h' := bump (cell_key x y) (heatmap_of s) in
  heatmap_of (state_of (trackMousePosition x y w s)) = h' /\
  recorded (log_of (trackMousePosition x y w s)) =
    if (length h' mod 20 =? 0)%nat then [("heatmap_data", heatmap_data h')]
    else [].
Proof.
  intros h'. unfold trackMousePosition, when.
  rewrite !state_bind, !log_bind.
  cbn [modify get fst snd state_of log_of app heatmapData set_heatmapData
       default id].
  fold (heatmap_of s). fold h'.
  set (s' := set_heatmapData (Some h') (set_heatmapData (Some (heatmap_of s)) s)).
  destruct (length h' mod 20 =? 0)%nat.
  - rewrite recorded_trackEvent. split; [|reflexivity].
    unfold heatmap_of.
    destruct (trackEvent_fields "heatmap_data" (heatmap_data h') w s')
      as (_ & _ & _ & -> & _). reflexivity.
  - split; reflexivity.
Qed.

Lemma bump_keys key h :
  map fst (bump key h) =
  if existsb (fun k => String.eqb k key) (map fst h) then map fst h
  else map fst h ++ [key].
Proof.
  induction h as [|[k c] h IH]; [reflexivity|].
  cbn [bump map fst existsb].
  destruct (String.eqb k key); cbn [orb map fst]; [reflexivity|].
  rewrite IH. destruct (existsb _ (map fst h)); reflexivity.
Qed.

Lemma bump_length key h :
  length (bump key h) =
  (length h +
   if existsb (fun k => String.eqb k key) (map fst h) then 0 else 1)%nat.
Proof.
  rewrite <- (length_map fst (bump key h)), bump_keys.
  destruct (existsb _ (map fst h)); rewrite ?length_app, length_map; cbn; lia.
Qed.

Lemma existsb_eqb_In key (ks : list string) :
  existsb (fun k => String.eqb k key) ks = true <-> In key ks.
Proof.
  rewrite existsb_exists. split.
  - intros (k & Hin & E). apply String.eqb_eq in E. subst. exact Hin.
  - intros Hin. exists key. split; [exact Hin|apply String.eqb_refl].
Qed.

Lemma bump_NoDup key h : NoDup (map fst h) -> NoDup (map fst (bump key h)).
Proof.
  intros H. rewrite bump_keys.
  destruct (existsb _ (map fst h)) eqn:E; [exact H|].
  apply NoDup_app. split; [exact H|]. split.
  - intros k Hk Hk'. apply list_elem_of_singleton in Hk'. subst k.
    apply list_elem_of_In, existsb_eqb_In in Hk. congruence.
  - apply NoDup_singleton.
Qed.

Lemma bump_count key h k :
  count_of k (bump key h) =
  if String.eqb key k then count_of k h + 1 else count_of k h.
Proof.
  unfold count_of. induction h as [|[k0 c] h IH].
  - cbn. destruct (String.eqb key k); reflexivity.
  - cbn [bump]. destruct (String.eqb_spec k0 key) as [->|Hne].
    + cbn [List.find fst snd]. destruct (String.eqb key k); reflexivity.
    + cbn [List.find fst snd]. destruct (String.eqb_spec k0 k) as [->|Hne'].
      * destruct (String.eqb_spec key k); [congruence|reflexivity].
      * exact IH.
Qed.

(** *** The sort *)

Lemma insert_desc_perm x l : insert_desc x l ≡ₚ x :: l.
Proof.
  induction l as [|y l IH]; [reflexivity|].
  cbn [insert_desc]. destruct (snd y <=? snd x); [reflexivity|].
  rewrite IH. apply Permutation_swap.
Qed.

Lemma sort_desc_perm l : sort_desc l ≡ₚ l.
Proof.
  induction l as [|x l IH]; [reflexivity|].
  cbn. rewrite insert_desc_perm. fold (sort_desc l). rewrite IH. reflexivity.
Qed.

Lemma insert_desc_sorted x l :
  StronglySorted desc l -> StronglySorted desc (insert_desc x l).
Proof.
  induction 1 as [|y l Hl IH Hy]; cbn [insert_desc].
  - repeat constructor.
  - destruct (Z.leb_spec (snd y) (snd x)) as [Hle|Hgt].
    + constructor; [constructor; assumption|].
      constructor; [exact Hle|].
      eapply Forall_impl; [exact Hy|]. unfold desc. cbn. intros; lia.
    + constructor; [exact IH|].
      rewrite insert_desc_perm. constructor; [unfold desc; lia|exact Hy].
Qed.

Lemma sort_desc_sorted l : StronglySorted desc (sort_desc l).
Proof.
  induction l as [|x l IH]; [constructor|].
  cbn. apply insert_desc_sorted, IH.
Qed.

Lemma sorted_take_drop n (l : list (string * Z)) :
  StronglySorted desc l ->
  Forall (fun a => Forall (fun b => desc a b) (drop n l)) (take n l).
Proof.
  intros H. revert n. induction H as [|x l Hl IH Hx]; intros n.
  - rewrite take_nil. constructor.
  - destruct n as [|n]; [constructor|]. cbn [take drop]. constructor.
    + rewrite <- (take_drop n l) in Hx. apply Forall_app in Hx. apply Hx.
    + apply IH.
Qed.

(** The five hottest cells: what is left out is no hotter than what is
    carried. *)
Lemma hot_spots_top5 h :
  exists rest,
    h ≡ₚ hot_spots h ++ rest /\
    length (hot_spots h) = Nat.min 5 (length h) /\
    StronglySorted desc (hot_spots h) /\
    Forall (fun a => Forall (fun b => snd b <= snd a) rest) (hot_spots h).
Proof.
  exists (drop 5 (sort_desc h)). unfold hot_spots. repeat split.
  - rewrite take_drop. symmetry. apply sort_desc_perm.
  - rewrite length_take, (Permutation_length (sort_desc_perm h)). reflexivity.
  - pose proof (sort_desc_sorted h) as H.
    rewrite <- (take_drop 5 (sort_desc h)) in H.
    revert H. generalize (take 5 (sort_desc h)) (drop 5 (sort_desc h)).
    intros l1 l2. induction l1 as [|a l1 IH]; intros H; [constructor|].
    cbn in H. inversion H as [|? ? H1 H2]; subst. constructor.
    + apply IH, H1.
    + apply Forall_app in H2. apply H2.
  - apply sorted_take_drop, sort_desc_sorted.
Qed.

(** The buckets of a run of samples are distinct cells. *)
Lemma mouse_samples_NoDup ps w s :
  NoDup (map fst (heatmap_of s)) ->
  NoDup (map fst (heatmap_of (state_of (mouse_samples ps w s)))).
Proof.
  revert s. induction ps as [|p ps IH]; intros s H; [exact H|].
  unfold mouse_samples in *. cbn [forEach]. rewrite state_bind.
  apply IH. destruct (trackMousePosition_eq (fst p) (snd p) w s) as [-> _].
  apply bump_NoDup, H.
Qed.

(** *** The key of a bucket determines its cell *)

Lemma append_nil (s : string) : "" +:+ s = s.
Proof. reflexivity. Qed.

Lemma append_cons c (a s : string) : String c a +:+ s = String c (a +:+ s).
Proof. reflexivity. Qed.

Lemma pretty_N_go_comma_free x s :
  comma_free s = true -> comma_free (pretty_N_go x s) = true.
Proof.
  revert s. induction (N.lt_wf_0 x) as [x _ IH]. intros s Hs.
  assert (x = 0 \/ 0 < x)%N as [->|Hx] by lia.
  - rewrite pretty_N_go_0. exact Hs.
  - rewrite pretty_N_go_step by exact Hx. apply IH.
    + apply N.div_lt; [exact Hx|reflexivity].
    + cbn [comma_free]. rewrite Hs, andb_true_r.
      unfold pretty_N_char. repeat case_match; reflexivity.
Qed.

Lemma pretty_Z_comma_free (z : Z) : comma_free (pretty z) = true.
Proof.
  assert (HN : forall n : N, comma_free (pretty n) = true).
  { intros n. unfold pretty, pretty_N. case_decide; [reflexivity|].
    apply pretty_N_go_comma_free. reflexivity. }
  destruct z as [|p|p]; [reflexivity|apply (HN (Npos p))|].
  change (pretty (Z.neg p)) with ("-" +:+ pretty (Npos p)).
  rewrite append_cons, append_nil. cbn [comma_free]. apply (HN (Npos p)).
Qed.

Lemma comma_split a a' b b' :
  comma_free a = true -> comma_free a' = true ->
  a +:+ "," +:+ b = a' +:+ "," +:+ b' -> a = a' /\ b = b'.
Proof.
  revert a'. induction a as [|c a IH]; intros [|c' a'] Ha Ha' E;
    rewrite ?append_nil, ?append_cons in E; cbn [comma_free] in Ha, Ha'.
  - injection E as E. rewrite !append_nil in E. subst. split; reflexivity.
  - injection E as E1 E2. subst c'. discriminate.
  - injection E as E1 E2. subst c. discriminate.
  - injection E as E1 E2. subst c'.
    apply andb_true_iff in Ha as [_ Ha]. apply andb_true_iff in Ha' as [_ Ha'].
    destruct (IH a' Ha Ha' E2) as [-> ->]. split; reflexivity.
Qed.

Lemma cell_key_inj x y x' y' :
  cell_key x y = cell_key x' y' <->
  x / gridSize = x' / gridSize /\ y / gridSize = y' / gridSize.
Proof.
  unfold cell_key. split.
  - intros E. apply comma_split in E as [E1 E2];
      try apply pretty_Z_comma_free.
    split; apply (inj pretty); assumption.
  - intros [-> ->]. reflexivity.
Qed.

(** C6 does not hold as stated.  After twenty samples in twenty different
    cells the heatmap has twenty buckets and a heatmap_data event has been
    recorded.  A twenty-first sample in the first cell, which is already
    there, records a heatmap_data event again: the number of buckets is
    still twenty. *)
Lemma heatmap_refires_on_seen_cell :
  let w := sample_world 1000 0 in
  let s20 := state_of (mouse_samples twenty_cells w sample_session) in
  NoDup (map fst (heatmap_of s20)) /\
  length (heatmap_of s20) = 20%nat /\
  cell_seen s20 0 0 = true /\
  emits_heatmap (log_of (trackMousePosition 0 0 w s20)) = true /\
  length (heatmap_of (state_of (trackMousePosition 0 0 w s20))) = 20%nat.
Proof.
  cbv zeta. split; [apply mouse_samples_NoDup; constructor|].
  vm_compute. repeat split; reflexivity.
Qed.

(** C6, amended.  A sample increments the bucket of its cell, creating
    it when the cell is new; two pixels share a bucket exactly when they
    lie in the same cell of the 50 px grid, so the buckets are the
    distinct cells seen so far.  The sample records a heatmap_data event
    exactly when the number of buckets after it is a multiple of 20,
    whether or not its cell was new.  The event carries the five buckets
    with the highest counts (all of them when there are fewer), hottest
    first: no bucket left out has a higher count than a bucket carried. *)
Theorem heatmap_emission (s : AnalyticsManager) (x y : Z) (w : World) :
  let h := heatmap_of s in
  let r := trackMousePosition x y w s in
  let h' := heatmap_of (state_of r) in
  (NoDup (map fst h) -> NoDup (map fst h')) /\
  (forall x' y', cell_key x' y' = cell_key x y <->
                 x' / gridSize = x / gridSize /\ y' / gridSize = y / gridSize) /\
  length h' = (length h + if cell_seen s x y then 0 else 1)%nat /\
  (forall k, count_of k h' =
             if String.eqb (cell_key x y) k then count_of k h + 1
             else count_of k h) /\
  recorded (log_of r) =
    (if (length h' mod 20 =? 0)%nat then [("heatmap_data", heatmap_data h')]
     else []) /\
  emits_heatmap (log_of r) = (length h' mod 20 =? 0)%nat /\
  prop (heatmap_data h') "hot_spots" = VArr (map hot_spot (hot_spots h')) /\
  (exists rest,
     h' ≡ₚ hot_spots h' ++ rest /\
     length (hot_spots h') = Nat.min 5 (length h') /\
     StronglySorted desc (hot_spots h') /\
     Forall (fun a => Forall (fun b => snd b <= snd a) rest) (hot_spots h')).
Proof.
  intros h r h'.
  destruct (trackMousePosition_eq x y w s) as [Eh Er].
  fold r in Eh, Er. fold h' in Eh. cbv zeta in Eh, Er. fold h in Eh, Er.
  rewrite <- Eh in Er.
  split; [|split; [|split; [|split; [|split; [|split; [|split]]]]]].
  - rewrite Eh. apply bump_NoDup.
  - intros x' y'. apply cell_key_inj.
  - rewrite Eh. apply bump_length.
  - intros k. rewrite Eh. apply bump_count.
  - exact Er.
  - unfold emits_heatmap. rewrite Er.
    destruct (length h' mod 20 =? 0)%nat; reflexivity.
  - unfold prop, heatmap_data. simplify_map_eq. reflexivity.
  - apply hot_spots_top5.
Qed.

Lemma heatmap_emission_witness :
  NoDup (map fst (heatmap_of sample_session)) /\
  NoDup (map fst (heatmap_of (state_of
    (trackMousePosition 120 80 (sample_world 1000 0) sample_session)))).
Proof.
  assert (H : NoDup (map fst (heatmap_of sample_session))) by constructor.
  split; [exact H|].
  exact (proj1 (heatmap_emission sample_session 120 80 (sample_world 1000 0)) H).
Defined.

(** ** Inactivity *)



Section Inactivity.

Variable env : Z -> World.
Hypothesis env_now : forall t, w_now (env t) = t.







End Inactivity.


(** ** Engagement score and unload *)

(** The score is the documented formula, computed on the pending queue. *)
Lemma score_on_queue w s :
  calculateEngagementScore w s =
  spec_engagement_score (w_now w - startTime s) (events s).
Proof.
  unfold calculateEngagementScore, spec_engagement_score, round_Q.
  apply Qfloor_comp. change (60 * 1000) with 60000. ring.
Qed.

(** Five minutes, twenty events still queued, two sections: 130. *)
Example score_130 :
  let s := state_of (run (nine_events ++ ten_clicks) sample_started) in
  length (events s) = 20%nat /\
  sectionsVisited (events s) = 2%nat /\
  calculateEngagementScore (sample_world 300000 0) s = 130.
Proof. vm_compute. repeat split; reflexivity. Qed.

(** C5, at an input where the code departs from it.  The session records
    ten events (page_load, two visits of different sections, seven
    clicks); the tenth triggers the flush and the collector answers 200.
    Five minutes after the start the session has recorded ten events and
    visited two sections, which the documented formula scores 110; the
    queue was emptied by the flush, and [calculateEngagementScore]
    returns 50, counting no event and no section. *)
Theorem engagement_score_after_flush :
  let l := nine_events ++ [Settle (Resolved 200)] in
  let s := state_of (run l sample_started) in
  let session_events := events sample_started ++ tracked sample_started l in
  length (recorded (log_of (run l sample_started))) = 9%nat /\
  length session_events = 10%nat /\
  sectionsVisited session_events = 2%nat /\
  spec_engagement_score 300000 session_events = 110 /\
  events s = [] /\
  calculateEngagementScore (sample_world 300000 0) s = 50.
Proof. vm_compute. repeat split; reflexivity. Qed.

(** *** Unload *)

(** What the [beforeunload] listener does: it records page_unload with
    the time since the start and the length of the pending queue, then
    flushes; the queue is not empty, so a request leaves. *)
Lemma on_beforeunload_eq w s :
  let s' := pushed "page_unload" (page_unload_data w s) w s in
  state_of (on_beforeunload w s) = s' /\
  recorded (log_of (on_beforeunload w s)) =
    [("page_unload", page_unload_data w s)] /\
  fetches (log_of (on_beforeunload w s)) =
    (if (10 <=? length (events s) + 1)%nat then [request_of w s'] else []) ++
    [request_of w s'].
Proof.
  intros s'. unfold on_beforeunload. rewrite state_bind, log_bind.
  cbn [get fst snd state_of log_of app]. fold (page_unload_data w s).
  rewrite state_bind, log_bind, recorded_app, fetches_app.
  rewrite recorded_trackEvent, fetches_trackEvent.
  rewrite trackEvent_eq. cbn [fst snd state_of]. fold s'.
  rewrite sendAnalytics_eq. cbn [fst snd state_of log_of].
  assert (E : events s' = events s ++ [make_event "page_unload" (page_unload_data w s) w s])
    by reflexivity.
  destruct (events s') eqn:E'.
  { destruct (events s); discriminate. }
  repeat split.
Qed.

(** C7, at an input where the code departs from it.  In the session
    above (ten events recorded, then flushed with success) the page is
    unloaded five minutes after the start.  The page_unload event carries
    the session duration, 300000 ms, and [total_events] 0, although ten
    events were recorded; the flush that follows carries that one
    event. *)
Theorem page_unload_after_flush :
  let l := nine_events ++ [Settle (Resolved 200)] in
  let s := state_of (run l sample_started) in
  let w := sample_world 300000 0 in
  let r := on_beforeunload w s in
  length (events sample_started ++ tracked sample_started l) = 10%nat /\
  recorded (log_of r) =
    [("page_unload",
      <["total_time_spent" := VNum 300000]> (<["total_events" := VNum 0]> ∅))] /\
  (exists b, fetches (log_of r) = [b] /\ length (r_events b) = 1%nat).
Proof.
  cbv zeta. split; [vm_compute; reflexivity|]. split; [vm_compute; reflexivity|].
  eexists. split; [vm_compute; reflexivity|]. reflexivity.
Qed.

(** * The rest of the class: properties *)

(** ** Properties that compose along a run *)

Section Composition.

Variable P : AnalyticsManager -> AnalyticsManager -> list effect -> Prop.
Hypothesis P_refl : forall s, P s s [].
Hypothesis P_trans : forall s1 s2 s3 o1 o2,
  P s1 s2 o1 -> P s2 s3 o2 -> P s1 s3 (o1 ++ o2).

Lemma holds_ret {A} (a : A) : holds P (ret a).
Proof. intros s. apply P_refl. Qed.

Lemma holds_get : holds P get.
Proof. intros s. apply P_refl. Qed.

Lemma holds_bind {A B} (m : M A) (k : A -> M B) :
  holds P m -> (forall a, holds P (k a)) -> holds P (bind m k).
Proof.
  intros Hm Hk s. rewrite state_bind, log_bind.
  eapply P_trans; [apply Hm|apply Hk].
Qed.

Lemma holds_when (b : bool) (m : M unit) : holds P m -> holds P (when b m).
Proof. intros Hm. destruct b; [exact Hm|apply holds_ret]. Qed.

Lemma holds_forEach {A} (f : A -> M unit) (l : list A) :
  Forall (fun x => holds P (f x)) l -> holds P (forEach f l).
Proof.
  induction 1 as [|x l Hx _ IH]; cbn [forEach]; [apply holds_ret|].
  apply holds_bind; [exact Hx|intros _; exact IH].
Qed.

(** What is left to show for a property: that the three steps which
    touch the queue or the network have it, and that the assignments to
    the other fields and the console have it. *)
Hypothesis P_trackEvent : forall n d w, holds P (trackEvent n d w).
Hypothesis P_sendAnalytics : forall w, holds P (sendAnalytics w).
Hypothesis P_isActive : forall b, holds P (modify (set_isActive b)).
Hypothesis P_timeout : forall d, holds P (modify (set_inactivityTimeout d)).
Hypothesis P_milestones : forall f,
  holds P (modify (fun s => set_scrollMilestones (f s) s)).
Hypothesis P_heatmap : forall f,
  holds P (modify (fun s => set_heatmapData (f s) s)).

Lemma holds_handleClick element x y vp w :
  holds P (handleClick element x y vp w).
Proof.
  unfold handleClick.
  repeat (apply holds_bind; [|intros _]); try apply holds_when;
    apply P_trackEvent.
Qed.

Lemma holds_trackScrollDepth w : holds P (trackScrollDepth w).
Proof.
  unfold trackScrollDepth. apply holds_forEach, Forall_forall.
  intros m _. unfold on_milestone.
  apply holds_bind; [apply holds_get|intros s]. apply holds_when.
  apply holds_bind; [apply P_milestones|intros _].
  apply holds_bind; [apply P_milestones|intros _].
  apply P_trackEvent.
Qed.

Lemma holds_trackMousePosition x y w : holds P (trackMousePosition x y w).
Proof.
  unfold trackMousePosition.
  apply holds_bind; [apply P_heatmap|intros _].
  apply holds_bind; [apply P_heatmap|intros _].
  apply holds_bind; [apply holds_get|intros s].
  apply holds_when, P_trackEvent.
Qed.

Lemma holds_on_beforeunload w : holds P (on_beforeunload w).
Proof.
  unfold on_beforeunload. apply holds_bind; [apply holds_get|intros s].
  apply holds_bind; [apply P_trackEvent|intros _]. apply P_sendAnalytics.
Qed.

Lemma holds_on_input target w : holds P (on_input target w).
Proof. unfold on_input. apply holds_when, P_trackEvent. Qed.

Lemma holds_resetInactivityTimer w : holds P (resetInactivityTimer w).
Proof.
  unfold resetInactivityTimer.
  apply holds_bind; [apply P_timeout|intros _].
  apply holds_bind; [apply P_isActive|intros _]. apply P_timeout.
Qed.

Lemma holds_inactivityExpired w : holds P (inactivityExpired w).
Proof.
  unfold inactivityExpired.
  apply holds_bind; [apply P_timeout|intros _].
  apply holds_bind; [apply P_isActive|intros _]. apply P_trackEvent.
Qed.

Lemma holds_sessionPing section w : holds P (sessionPing section w).
Proof.
  unfold sessionPing. apply holds_bind; [apply holds_get|intros s].
  apply holds_when, P_trackEvent.
Qed.

Lemma holds_trackABTest n v w : holds P (trackABTest n v w).
Proof.
  unfold trackABTest. apply holds_bind; [apply holds_get|intros s].
  apply P_trackEvent.
Qed.

(** Every task but a settled request, a change of visibility and a
    scroll sample. *)
Lemma holds_handle t :
  match t with
  | T_settle _ | T_visibility _ _ | T_scroll_sample _ => False
  | _ => True
  end ->
  holds P (handle t).
Proof.
  destruct t; cbn [handle]; intros H; try contradiction.
  - apply P_trackEvent.
  - apply P_sendAnalytics.
  - apply holds_handleClick.
  - apply holds_trackMousePosition.
  - apply holds_on_beforeunload.
  - apply holds_on_input.
  - apply P_trackEvent.
  - apply holds_resetInactivityTimer.
  - apply holds_inactivityExpired.
  - apply holds_sessionPing.
  - apply holds_trackABTest.
  - apply P_trackEvent.
Qed.

End Composition.

(** ** The identity of the session *)

Lemma same_session_refl s : same_session s s [].
Proof. split; reflexivity. Qed.

Lemma same_session_trans s1 s2 s3 o1 o2 :
  same_session s1 s2 o1 -> same_session s2 s3 o2 -> same_session s1 s3 (o1 ++ o2).
Proof. intros [H1 H2] [H3 H4]. split; congruence. Qed.

Lemma same_session_trackEvent n d w : holds same_session (trackEvent n d w).
Proof. intros s. rewrite trackEvent_eq. split; reflexivity. Qed.

Lemma same_session_sendAnalytics w : holds same_session (sendAnalytics w).
Proof. intros s. rewrite sendAnalytics_eq. split; reflexivity. Qed.

Lemma same_session_settle r : holds same_session (sendAnalytics_settle r).
Proof.
  intros s. destruct r as [status|]; cbn; [|split; reflexivity].
  destruct (ok status); split; reflexivity.
Qed.

Lemma same_session_visibility hidden w :
  holds same_session (on_visibilitychange hidden w).
Proof.
  destruct hidden; cbn [on_visibilitychange].
  - apply (holds_bind _ same_session_trans); [apply holds_get, same_session_refl|].
    intros s. apply same_session_trackEvent.
  - apply (holds_bind _ same_session_trans); [intros s; split; reflexivity|].
    intros _. apply same_session_trackEvent.
Qed.

Lemma same_session_handle t : holds same_session (handle t).
Proof.
  destruct t; try (apply (holds_handle _ same_session_refl same_session_trans);
    [apply same_session_trackEvent|apply same_session_sendAnalytics|
     intros ? ?; split; reflexivity ..|exact I]).
  - apply same_session_settle.
  - apply (holds_trackScrollDepth _ same_session_refl same_session_trans);
      [apply same_session_trackEvent|intros ? ?; split; reflexivity].
  - apply same_session_visibility.
Qed.

Lemma session_identity_kept (l : list task) (s : AnalyticsManager) :
  sessionId (state_of (handle_all l s)) = sessionId s /\
  startTime (state_of (handle_all l s)) = startTime s.
Proof.
  apply (holds_forEach _ same_session_refl same_session_trans).
  apply Forall_forall. intros t _. apply same_session_handle.
Qed.

(** ** Requests *)

Lemma fetches_sendAnalytics w s :
  fetches (log_of (sendAnalytics w s)) =
  match events s with [] => [] | _ => [request_of w s] end.
Proof. rewrite sendAnalytics_eq. cbn. destruct (events s); reflexivity. Qed.

Lemma pushed_nonempty n d w s : events (pushed n d w s) <> [].
Proof. cbn. destruct (events s); discriminate. Qed.

Lemma sound_requests_refl s : sound_requests s s [].
Proof. split; [reflexivity|constructor]. Qed.

Lemma sound_requests_trans s1 s2 s3 o1 o2 :
  sound_requests s1 s2 o1 -> sound_requests s2 s3 o2 ->
  sound_requests s1 s3 (o1 ++ o2).
Proof.
  intros [H1 F1] [H2 F2]. split; [congruence|].
  rewrite fetches_app. apply Forall_app. split; [exact F1|].
  rewrite <- H1. exact F2.
Qed.

Lemma sound_requests_trackEvent n d w : holds sound_requests (trackEvent n d w).
Proof.
  intros s. split; [rewrite trackEvent_eq; reflexivity|].
  rewrite fetches_trackEvent. destruct (10 <=? _)%nat; constructor; [|constructor].
  split; [reflexivity|apply pushed_nonempty].
Qed.

Lemma sound_requests_sendAnalytics w : holds sound_requests (sendAnalytics w).
Proof.
  intros s. split; [rewrite sendAnalytics_eq; reflexivity|].
  rewrite fetches_sendAnalytics. unfold request_of.
  destruct (events s) eqn:E; constructor; [|constructor].
  cbn. split; [reflexivity|discriminate].
Qed.

Lemma sound_requests_quiet (f : AnalyticsManager -> AnalyticsManager) :
  (forall s, sessionId (f s) = sessionId s) -> holds sound_requests (modify f).
Proof. intros H s. split; [apply H|constructor]. Qed.

Lemma sound_requests_settle r : holds sound_requests (sendAnalytics_settle r).
Proof.
  intros s. destruct r as [status|]; cbn; [|split; [reflexivity|constructor]].
  destruct (ok status); split; try reflexivity; constructor.
Qed.

Lemma sound_requests_visibility hidden w :
  holds sound_requests (on_visibilitychange hidden w).
Proof.
  destruct hidden; cbn [on_visibilitychange].
  - apply (holds_bind _ sound_requests_trans);
      [apply holds_get, sound_requests_refl|].
    intros s. apply sound_requests_trackEvent.
  - apply (holds_bind _ sound_requests_trans);
      [apply sound_requests_quiet; reflexivity|].
    intros _. apply sound_requests_trackEvent.
Qed.

Lemma sound_requests_handle t : holds sound_requests (handle t).
Proof.
  destruct t; try (apply (holds_handle _ sound_requests_refl sound_requests_trans);
    [apply sound_requests_trackEvent|apply sound_requests_sendAnalytics|
     intros ?; apply sound_requests_quiet; reflexivity ..|exact I]).
  - apply sound_requests_settle.
  - apply (holds_trackScrollDepth _ sound_requests_refl sound_requests_trans);
      [apply sound_requests_trackEvent|intros ?; apply sound_requests_quiet; reflexivity].
  - apply sound_requests_visibility.
Qed.

(** X1.  Whatever runs on the object (recordings, flushes, answers of
    the collector, clicks, scroll and mouse samples, changes of
    visibility, unload, input, errors, timer, pings, A/B tests, funnel
    steps), the session id and the start time stay those of the
    beginning, every request posted bears that session id, and no request
    is posted with an empty batch. *)
Theorem requests_sound (l : list task) (s : AnalyticsManager) :
  sessionId (state_of (handle_all l s)) = sessionId s /\
  startTime (state_of (handle_all l s)) = startTime s /\
  Forall (fun b => r_session_id b = sessionId s /\ r_events b <> [])
    (fetches (log_of (handle_all l s))).
Proof.
  destruct (session_identity_kept l s) as [H1 H2].
  split; [exact H1|]. split; [exact H2|].
  apply (holds_forEach _ sound_requests_refl sound_requests_trans).
  apply Forall_forall. intros t _. apply sound_requests_handle.
Qed.

(** ** The queue *)

Lemma queue_grows_refl s : queue_grows s s [].
Proof. split; [reflexivity|]. split; [cbn; lia|constructor]. Qed.

Lemma queue_grows_trans s1 s2 s3 o1 o2 :
  queue_grows s1 s2 o1 -> queue_grows s2 s3 o2 -> queue_grows s1 s3 (o1 ++ o2).
Proof.
  intros (P1 & L1 & F1) (P2 & L2 & F2). split; [etrans; eassumption|]. split.
  - rewrite recorded_app, length_app. lia.
  - rewrite fetches_app. apply Forall_app. split; [|exact F2].
    eapply Forall_impl; [exact F1|]. cbn. intros b [Hp Hn].
    split; [etrans; eassumption|exact Hn].
Qed.

Lemma queue_grows_trackEvent n d w : holds queue_grows (trackEvent n d w).
Proof.
  intros s. split; [|split].
  - rewrite trackEvent_eq. cbn. apply prefix_app_r. reflexivity.
  - rewrite recorded_trackEvent, trackEvent_eq. cbn. rewrite length_app.
    reflexivity.
  - rewrite fetches_trackEvent, trackEvent_eq. cbn [state_of fst snd].
    destruct (10 <=? _)%nat; constructor; [|constructor].
    split; [reflexivity|apply pushed_nonempty].
Qed.

Lemma queue_grows_sendAnalytics w : holds queue_grows (sendAnalytics w).
Proof.
  intros s. split; [|split].
  - rewrite sendAnalytics_eq. reflexivity.
  - rewrite sendAnalytics_eq. cbn. destruct (events s); cbn; lia.
  - rewrite fetches_sendAnalytics, sendAnalytics_eq. cbn [state_of fst snd].
    unfold request_of. destruct (events s) eqn:E; constructor; [|constructor].
    cbn. split; [reflexivity|discriminate].
Qed.

Lemma queue_grows_quiet (f : AnalyticsManager -> AnalyticsManager) :
  (forall s, events (f s) = events s) -> holds queue_grows (modify f).
Proof.
  intros H s. unfold queue_grows, modify, state_of, log_of.
  cbn [fst snd recorded fetches omap]. rewrite H. split; [reflexivity|].
  split; [cbn; lia|constructor].
Qed.

Lemma queue_grows_settle r :
  failed r = true -> holds queue_grows (sendAnalytics_settle r).
Proof.
  intros H s. rewrite (settle_failed _ _ H). cbn [state_of fst snd log_of].
  destruct r as [status|]; cbn in *.
  - apply negb_true_iff in H. rewrite H. apply queue_grows_refl.
  - split; [reflexivity|]. split; [cbn; lia|constructor].
Qed.

Lemma queue_grows_visibility hidden w :
  holds queue_grows (on_visibilitychange hidden w).
Proof.
  destruct hidden; cbn [on_visibilitychange].
  - apply (holds_bind _ queue_grows_trans);
      [apply holds_get, queue_grows_refl|].
    intros s. apply queue_grows_trackEvent.
  - apply (holds_bind _ queue_grows_trans);
      [apply queue_grows_quiet; reflexivity|].
    intros _. apply queue_grows_trackEvent.
Qed.

Lemma queue_grows_handle t :
  not_success t = true -> holds queue_grows (handle t).
Proof.
  intros H.
  destruct t; try (apply (holds_handle _ queue_grows_refl queue_grows_trans);
    [apply queue_grows_trackEvent|apply queue_grows_sendAnalytics|
     intros ?; apply queue_grows_quiet; reflexivity ..|exact I]).
  - apply queue_grows_settle, H.
  - apply (holds_trackScrollDepth _ queue_grows_refl queue_grows_trans);
      [apply queue_grows_trackEvent|intros ?; apply queue_grows_quiet; reflexivity].
  - apply queue_grows_visibility.
Qed.

(** X2.  The queue is only ever emptied by the success of a request.
    In a series of tasks of any kind in which no request is answered with
    a 2xx status, the queue keeps what it held, in order, and grows by one
    event for each event recorded in the console log; every request
    posted meanwhile carries a non-empty front part of the final queue
    (so consecutive requests repeat the events of the earlier ones). *)
Theorem queue_append_only (l : list task) (s : AnalyticsManager) :
  forallb not_success l = true ->
  let r := handle_all l s in
  events s `prefix_of` events (state_of r) /\
  length (events (state_of r)) =
    (length (events s) + length (recorded (log_of r)))%nat /\
  Forall (fun b => r_events b `prefix_of` events (state_of r) /\ r_events b <> [])
    (fetches (log_of r)).
Proof.
  intros H. apply (holds_forEach _ queue_grows_refl queue_grows_trans).
  apply Forall_forall. intros t Ht. apply queue_grows_handle.
  rewrite forallb_forall in H. apply H, list_elem_of_In, Ht.
Qed.

(** ** Visibility *)

Lemma same_lastActivity_refl s : same_lastActivity s s [].
Proof. reflexivity. Qed.

Lemma same_lastActivity_trans s1 s2 s3 o1 o2 :
  same_lastActivity s1 s2 o1 -> same_lastActivity s2 s3 o2 ->
  same_lastActivity s1 s3 (o1 ++ o2).
Proof. unfold same_lastActivity. congruence. Qed.

Lemma same_lastActivity_trackEvent n d w :
  holds same_lastActivity (trackEvent n d w).
Proof. intros s. rewrite trackEvent_eq. reflexivity. Qed.

Lemma same_lastActivity_handle t :
  not_focus t = true -> holds same_lastActivity (handle t).
Proof.
  intros H.
  destruct t; try (apply (holds_handle _ same_lastActivity_refl
                            same_lastActivity_trans);
    [apply same_lastActivity_trackEvent|
     intros ? ?; rewrite sendAnalytics_eq; reflexivity|
     intros ? ?; reflexivity ..|exact I]).
  - intros s. destruct r as [status|]; cbn; [|reflexivity].
    destruct (ok status); reflexivity.
  - apply (holds_trackScrollDepth _ same_lastActivity_refl
             same_lastActivity_trans);
      [apply same_lastActivity_trackEvent|intros ? ?; reflexivity].
  - destruct hidden; [|discriminate]. cbn [handle on_visibilitychange].
    apply (holds_bind _ same_lastActivity_trans);
      [apply holds_get, same_lastActivity_refl|].
    intros s. apply same_lastActivity_trackEvent.
Qed.

Lemma lastActivity_kept l s :
  forallb not_focus l = true ->
  lastActivity (state_of (handle_all l s)) = lastActivity s.
Proof.
  intros H. apply (holds_forEach _ same_lastActivity_refl same_lastActivity_trans).
  apply Forall_forall. intros t Ht. apply same_lastActivity_handle.
  rewrite forallb_forall in H. apply H, list_elem_of_In, Ht.
Qed.

(** X3.  [lastActivity] is the instant the page last became visible, or
    the instant of construction: only the visibility listener writes it,
    not the user's input.  When the page becomes visible at [w1], any
    tasks but a new return to visibility follow (clicks, qualifying
    input, samples, flushes, ...), and the page is then hidden at [w2],
    the page_blur event recorded carries [time_spent], the time between
    [w1] and [w2]. *)
Theorem blur_time_since_focus (l : list task) (s : AnalyticsManager)
    (w1 w2 : World) :
  forallb not_focus l = true ->
  let s1 := state_of (on_visibilitychange false w1 s) in
  let s2 := state_of (handle_all l s1) in
  lastActivity s1 = w_now w1 /\
  lastActivity s2 = w_now w1 /\
  recorded (log_of (on_visibilitychange true w2 s2)) =
    [("page_blur", <["time_spent" := VNum (w_now w2 - w_now w1)]> ∅)].
Proof.
  intros H s1 s2.
  assert (E1 : lastActivity s1 = w_now w1).
  { subst s1. cbn [on_visibilitychange]. rewrite state_bind.
    cbn [modify fst snd state_of]. rewrite trackEvent_eq. reflexivity. }
  assert (E2 : lastActivity s2 = w_now w1).
  { subst s2. rewrite lastActivity_kept by exact H. exact E1. }
  split; [exact E1|]. split; [exact E2|].
  cbn [on_visibilitychange]. rewrite log_bind.
  cbn [get fst snd state_of log_of app]. rewrite recorded_trackEvent, E2.
  reflexivity.
Qed.

(** ** Flushes that overlap with recordings *)

Lemma log_run_cons a l s :
  log_of (run (a :: l) s) =
  log_of (perform a s) ++ log_of (run l (state_of (perform a s))).
Proof. unfold run. rewrite forEach_cons. reflexivity. Qed.

Lemma state_run_cons a l s :
  state_of (run (a :: l) s) = state_of (run l (state_of (perform a s))).
Proof. unfold run. rewrite forEach_cons. reflexivity. Qed.

Lemma log_run_app l1 l2 s :
  log_of (run (l1 ++ l2) s) =
  log_of (run l1 s) ++ log_of (run l2 (state_of (run l1 s))).
Proof. apply log_forEach_app. Qed.

Lemma state_run_app l1 l2 s :
  state_of (run (l1 ++ l2) s) = state_of (run l2 (state_of (run l1 s))).
Proof. apply state_forEach_app. Qed.

Lemma recorded_tracks l s :
  length (recorded (log_of (run (map track_of l) s))) = length l.
Proof.
  revert s. induction l as [|x l IH]; intros s; [reflexivity|].
  cbn [map]. rewrite log_run_cons, recorded_app, length_app, IH.
  cbn [perform track_of]. rewrite recorded_trackEvent. reflexivity.
Qed.

(** X4.  Success empties the whole queue, also of what the request did
    not carry.  Flush a non-empty queue, record further events while the
    request is in flight, few enough not to reach ten, and let the
    collector answer with a 2xx status: one request was posted, with the
    queue as it was at the flush; the events recorded since are in no
    request, and the queue is empty. *)
Theorem success_drops_unsent (s : AnalyticsManager) (w : World)
    (l : list recording) (status : Z) :
  events s <> [] ->
  (length (events s) + length l < 10)%nat ->
  ok status = true ->
  let r := run (Flush w :: map track_of l ++ [Settle (Resolved status)]) s in
  fetches (log_of r) = [request_of w s] /\
  r_events (request_of w s) = events s /\
  length (recorded (log_of r)) = length l /\
  events (state_of r) = [].
Proof.
  intros Hne Hlen Hok r. subst r.
  assert (E0 : sendAnalytics w s = (tt, s, [Fetch (request_of w s)])).
  { rewrite sendAnalytics_eq. destruct (events s); [congruence|reflexivity]. }
  assert (L1 : log_of (run [Settle (Resolved status)]
                         (state_of (run (map track_of l) s))) =
               [LogSent (length (events (state_of (run (map track_of l) s))))]).
  { cbn. rewrite Hok. reflexivity. }
  rewrite log_run_cons, state_run_cons, log_run_app, state_run_app.
  cbn [perform]. rewrite E0. cbn [state_of log_of fst snd].
  fold (log_of (run (map track_of l) s)).
  fold (state_of (run (map track_of l) s)).
  fold (log_of (run [Settle (Resolved status)] (state_of (run (map track_of l) s)))).
  fold (state_of (run [Settle (Resolved status)] (state_of (run (map track_of l) s)))).
  rewrite L1.
  split; [|split; [reflexivity|split]].
  - change [Fetch (request_of w s)] with ([Fetch (request_of w s)] ++ []) at 1.
    rewrite !fetches_app, tracks_quiet by exact Hlen. reflexivity.
  - rewrite !recorded_app, !length_app, recorded_tracks. cbn. lia.
  - cbn. rewrite Hok. reflexivity.
Qed.

(** X5.  Nothing holds a flush back while another is in flight.  Once
    the queue holds nine events or more, every further recording posts
    a request of its own carrying the whole queue, so that the k-th
    request repeats the queue and the first k new events. *)
Theorem every_recording_resends (l : list recording) (s : AnalyticsManager) :
  (9 <= length (events s))%nat ->
  map r_events (fetches (log_of (run (map track_of l) s))) =
  map (fun k => events s ++ take k (tracked s (map track_of l)))
      (seq 1 (length l)).
Proof.
  revert s. induction l as [|x l IH]; intros s H; [reflexivity|].
  cbn [map]. rewrite log_run_cons.
  rewrite fetches_app, map_app. cbn [perform track_of].
  rewrite fetches_trackEvent.
  destruct (Nat.leb_spec 10 (length (events s) + 1)) as [_|]; [|lia].
  rewrite IH by (rewrite trackEvent_eq; cbn; rewrite length_app; cbn; lia).
  cbn [length seq map app]. f_equal.
  rewrite <- (seq_shift (length l) 1), map_map. apply map_ext. intros k.
  rewrite trackEvent_eq. cbn [state_of fst snd].
  rewrite (tracked_sid (pushed _ _ _ s) s) by reflexivity.
  cbn [pushed set_events events tracked omap track_of take].
  rewrite <- app_assoc. reflexivity.
Qed.

(** X6.  Unloading posts the last batch twice when the queue already
    held nine events or more: recording page_unload reaches the
    threshold and flushes, and the listener flushes again; both requests
    carry the same queue, ending with the page_unload event.  Below nine
    events there is one request. *)
Theorem unload_posts_twice (w : World) (s : AnalyticsManager) :
  let b := request_of w (pushed "page_unload" (page_unload_data w s) w s) in
  fetches (log_of (on_beforeunload w s)) =
    (if (9 <=? length (events s))%nat then [b; b] else [b]) /\
  last (r_events b) = Some (make_event "page_unload" (page_unload_data w s) w s).
Proof.
  intros b. destruct (on_beforeunload_eq w s) as (_ & _ & E). split.
  - rewrite E. fold b.
    destruct (Nat.leb_spec 10 (length (events s) + 1)),
             (Nat.leb_spec 9 (length (events s))); try lia; reflexivity.
  - subst b. cbn. apply last_snoc.
Qed.

(** ** The current section *)

Lemma getCurrentSection_fold sections current :
  fold_left (fun (current : string) (sec : string * bool) =>
               if snd sec then fst sec else current) sections current =
  match last (List.filter snd sections) with
  | Some sec => fst sec
  | None => current
  end.
Proof.
  revert current. induction sections as [|[id a] l IH]; intros current;
    [reflexivity|].
  cbn [fold_left List.filter fst snd]. rewrite IH. destruct a; [|reflexivity].
  rewrite last_cons. destruct (last (List.filter snd l)); reflexivity.
Qed.

(** X7.  [getCurrentSection] returns the id of the last section, in
    document order, that carries the class [active], and ['unknown'] when
    none does; sections that are not active play no part. *)
Theorem current_section_last_active (sections : list (string * bool)) :
  getCurrentSection sections =
    match last (List.filter snd sections) with
    | Some sec => fst sec
    | None => "unknown"
    end /\
  (forall before after id,
     sections = before ++ (id, true) :: after ->
     Forall (fun sec => snd sec = false) after ->
     getCurrentSection sections = id) /\
  (Forall (fun sec => snd sec = false) sections ->
   getCurrentSection sections = "unknown").
Proof.
  assert (E := getCurrentSection_fold sections "unknown").
  fold (getCurrentSection sections) in E.
  assert (F : forall l : list (string * bool),
            Forall (fun sec => snd sec = false) l -> List.filter snd l = []).
  { induction 1 as [|[i a] l Ha _ IH]; [reflexivity|].
    cbn in *. rewrite Ha. exact IH. }
  split; [exact E|]. split.
  - intros before after id -> Hafter. rewrite E, List.filter_app.
    cbn [List.filter snd]. rewrite (F _ Hafter), last_snoc. reflexivity.
  - intros Hall. rewrite E, (F _ Hall). reflexivity.
Qed.

Lemma current_section_last_active_witness :
  [("about", true); ("skills", false); ("projects", true); ("contact", false)] =
    [("about", true); ("skills", false)] ++ ("projects", true) :: [("contact", false)] /\
  Forall (fun sec : string * bool => snd sec = false) [("contact", false)] /\
  getCurrentSection
    [("about", true); ("skills", false); ("projects", true); ("contact", false)] =
    "projects".
Proof.
  assert (H1 : [("about", true); ("skills", false); ("projects", true);
                ("contact", false)] =
    [("about", true); ("skills", false)] ++ ("projects", true) :: [("contact", false)])
    by reflexivity.
  assert (H2 : Forall (fun sec : string * bool => snd sec = false)
                 [("contact", false)]) by (repeat constructor).
  split; [exact H1|]. split; [exact H2|].
  exact (proj1 (proj2 (current_section_last_active _)) _ _ _ H1 H2).
Defined.

(** ** Pings *)


Lemma same_session_holds_modify (f : AnalyticsManager -> AnalyticsManager) :
  (forall s, sessionId (f s) = sessionId s) ->
  (forall s, startTime (f s) = startTime s) ->
  holds same_session (modify f).
Proof. intros H1 H2 s. split; [apply H1|apply H2]. Qed.




(** ** The heatmap counts every sample *)

Lemma total_count_cons e h : total_count (e :: h) = snd e + total_count h.
Proof. reflexivity. Qed.

Lemma total_count_bump key h : total_count (bump key h) = total_count h + 1.
Proof.
  induction h as [|[k c] h IH]; [reflexivity|].
  cbn [bump]. destruct (String.eqb k key);
    rewrite !total_count_cons; cbn [snd]; lia.
Qed.

Lemma heatmap_after_sample x y w s :
  heatmap_of (state_of (trackMousePosition x y w s)) =
  bump (cell_key x y) (heatmap_of s).
Proof. apply trackMousePosition_eq. Qed.

(** X9.  The heatmap counts every sample once.  After a series of
    mouse samples the counts of all buckets add up to what they added up
    to before plus the number of samples; the count of each bucket has
    grown by the number of samples that fell in its cell; and a cell has
    a bucket exactly when it had one before or a sample fell in it. *)
Theorem heatmap_counts_samples (ps : list (Z * Z)) (w : World)
    (s : AnalyticsManager) (k : string) :
  let h := heatmap_of s in
  let h' := heatmap_of (state_of (mouse_samples ps w s)) in
  total_count h' = total_count h + Z.of_nat (length ps) /\
  count_of k h' = count_of k h + Z.of_nat (length (samples_in k ps)) /\
  (In k (map fst h') <->
   In k (map fst h) \/ exists p, In p ps /\ cell_key (fst p) (snd p) = k).
Proof.
  cbv zeta. revert s. induction ps as [|p ps IH]; intros s.
  - unfold mouse_samples. cbn [forEach ret state_of fst snd length samples_in List.filter].
    split; [lia|]. split; [lia|]. split; [tauto|].
    intros [H|(p & [] & _)]. exact H.
  - unfold mouse_samples in *. cbn [forEach]. rewrite state_bind.
    destruct (IH (state_of (trackMousePosition (fst p) (snd p) w s)))
      as (T & C & K).
    rewrite heatmap_after_sample in T, C, K.
    rewrite total_count_bump in T. rewrite bump_count in C.
    split; [|split].
    + rewrite T. cbn [length]. lia.
    + rewrite C. unfold samples_in. cbn [List.filter].
      destruct (String.eqb (cell_key (fst p) (snd p)) k); cbn [length]; lia.
    + rewrite K, bump_keys.
      destruct (existsb _ (map fst (heatmap_of s))) eqn:E.
      * apply existsb_eqb_In in E. split.
        -- intros [H|(q & Hq & Hk)]; [left; exact H|].
           right. exists q. split; [right; exact Hq|exact Hk].
        -- intros [H|(q & [<-|Hq] & Hk)].
           ++ left; exact H.
           ++ left. rewrite <- Hk. exact E.
           ++ right. exists q. split; assumption.
      * rewrite in_app_iff. cbn [In]. split.
        -- intros [[H|[H|[]]]|(q & Hq & Hk)].
           ++ left; exact H.
           ++ right. exists p. split; [left; reflexivity|exact H].
           ++ right. exists q. split; [right; exact Hq|exact Hk].
        -- intros [H|(q & [<-|Hq] & Hk)].
           ++ left; left; exact H.
           ++ left; right; left. exact Hk.
           ++ right. exists q. split; assumption.
Qed.

(** ** Scroll depth: order and closure *)

Lemma js_ge_mono x m m' : m <= m' -> js_ge x m' = true -> js_ge x m = true.
Proof.
  intros Hm. destruct x as [q| | |]; cbn; try (intros; assumption || reflexivity).
  intros H. apply Qle_bool_iff in H. apply Qle_bool_iff.
  eapply Qle_trans; [|exact H]. rewrite <- Zle_Qle. exact Hm.
Qed.

Lemma on_milestone_recorded pct w m s :
  recorded (log_of (on_milestone pct w m s)) =
  if js_ge pct m && negb (milestone_seen s m)
  then [("scroll_depth", scroll_depth_data m w)] else [].
Proof.
  unfold on_milestone, when. rewrite log_bind.
  cbn [get fst snd state_of log_of app].
  destruct (js_ge pct m && negb (milestone_seen s m)); [|reflexivity].
  rewrite !log_bind. cbn [modify fst snd state_of log_of app].
  apply recorded_trackEvent.
Qed.

Lemma forEach_milestones_recorded pct w ml s :
  NoDup ml ->
  recorded (log_of (forEach (on_milestone pct w) ml s)) =
  scroll_depth_events w
    (List.filter (fun m => js_ge pct m && negb (milestone_seen s m)) ml).
Proof.
  intros H. revert s. induction H as [|m ml Hm _ IH]; intros s; [reflexivity|].
  cbn [forEach]. rewrite log_bind, recorded_app, on_milestone_recorded, IH.
  cbn [List.filter].
  assert (E : List.filter (fun m0 => js_ge pct m0 &&
                negb (milestone_seen (state_of (on_milestone pct w m s)) m0)) ml =
              List.filter (fun m0 => js_ge pct m0 && negb (milestone_seen s m0)) ml).
  { apply List.filter_ext_in. intros m' Hin. rewrite on_milestone_seen.
    destruct (Z.eqb_spec m m') as [->|_].
    - exfalso. apply Hm, list_elem_of_In, Hin.
    - rewrite orb_false_r. reflexivity. }
  rewrite E. destruct (js_ge pct m && negb (milestone_seen s m)); reflexivity.
Qed.

Lemma milestones_NoDup : NoDup milestones.
Proof. apply (bool_decide_unpack _). reflexivity. Qed.

Lemma trackScrollDepth_recorded w s :
  recorded (log_of (trackScrollDepth w s)) =
  scroll_depth_events w (newly_crossed w s).
Proof. apply forEach_milestones_recorded, milestones_NoDup. Qed.

Lemma In_milestones m : In m milestones -> existsb (Z.eqb m) milestones = true.
Proof.
  intros H. apply existsb_exists. exists m. split; [exact H|apply Z.eqb_refl].
Qed.

Lemma trackScrollDepth_closed w s :
  downward_closed s -> downward_closed (state_of (trackScrollDepth w s)).
Proof.
  intros H m m' Hm Hm' Hle. rewrite !trackScrollDepth_seen.
  rewrite (In_milestones _ Hm), (In_milestones _ Hm'). cbn [andb].
  intros Hs. apply orb_true_iff in Hs as [Hs|Hs].
  - rewrite (H m m' Hm Hm' Hle Hs). reflexivity.
  - unfold crosses in *. rewrite (js_ge_mono _ _ _ Hle Hs). apply orb_true_r.
Qed.

Lemma same_milestones_handle t :
  not_scroll t = true -> holds same_milestones (handle t).
Proof.
  assert (R : forall s, same_milestones s s []) by reflexivity.
  assert (T : forall s1 s2 s3 o1 o2, same_milestones s1 s2 o1 ->
            same_milestones s2 s3 o2 -> same_milestones s1 s3 (o1 ++ o2)).
  { unfold same_milestones. congruence. }
  assert (E : forall n d w, holds same_milestones (trackEvent n d w)).
  { intros n d w s. rewrite trackEvent_eq. reflexivity. }
  intros H. destruct t; try discriminate;
    try (apply (holds_handle _ R T);
         [apply E|intros ? ?; rewrite sendAnalytics_eq; reflexivity|
          intros ? ?; reflexivity ..|exact I]).
  - intros s. destruct r as [status|]; cbn; [|reflexivity].
    destruct (ok status); reflexivity.
  - destruct hidden; cbn [handle on_visibilitychange].
    + apply (holds_bind _ T); [apply holds_get, R|]. intros s. apply E.
    + apply (holds_bind _ T); [intros s; reflexivity|]. intros _. apply E.
Qed.

Lemma handle_closed t s :
  downward_closed s -> downward_closed (state_of (handle t s)).
Proof.
  intros H. destruct (not_scroll t) eqn:E.
  - pose proof (same_milestones_handle t E s) as Hs.
    unfold same_milestones in Hs. unfold downward_closed, milestone_seen in *.
    rewrite Hs. exact H.
  - destruct t; try discriminate. apply trackScrollDepth_closed, H.
Qed.

Lemma handle_all_closed l s :
  downward_closed s -> downward_closed (state_of (handle_all l s)).
Proof.
  revert s. induction l as [|t l IH]; intros s H; [exact H|].
  unfold handle_all in *. cbn [forEach]. rewrite state_bind.
  apply IH, handle_closed, H.
Qed.

Lemma fresh_closed sid w : downward_closed (fresh sid w).
Proof. intros m m' _ _ _ H. discriminate. Qed.

(** X10.  Milestones are reached from the bottom up.  However the
    session has run since its construction (any tasks), a milestone that
    has been reached has all the lower milestones reached too; and a
    scroll sample records, in ascending order, exactly the milestones it
    is at or beyond and that had not been reached: a first sample at
    100 % records 25, 50, 75 and 100 at once. *)
Theorem milestones_bottom_up (sid : string) (w0 : World) (l : list task)
    (w : World) :
  let s := state_of (handle_all l (fresh sid w0)) in
  downward_closed s /\
  recorded (log_of (trackScrollDepth w s)) =
    scroll_depth_events w (newly_crossed w s) /\
  StronglySorted Z.lt (newly_crossed w s) /\
  (forall m, In m (newly_crossed w s) <->
             In m milestones /\ crosses m w = true /\ milestone_seen s m = false) /\
  (forall m m', In m milestones -> In m' (newly_crossed w s) -> m <= m' ->
                milestone_seen s m = true \/ In m (newly_crossed w s)).
Proof.
  intros s.
  assert (C : downward_closed s) by apply handle_all_closed, fresh_closed.
  assert (I : forall m, In m (newly_crossed w s) <->
              In m milestones /\ crosses m w = true /\ milestone_seen s m = false).
  { intros m. unfold newly_crossed. rewrite List.filter_In, andb_true_iff,
      negb_true_iff. tauto. }
  split; [exact C|]. split; [apply trackScrollDepth_recorded|].
  split; [|split; [exact I|]].
  - unfold newly_crossed, milestones. cbn [List.filter].
    repeat match goal with |- context [if ?b then _ else _] => destruct b end;
      repeat constructor.
  - intros m m' Hm Hm' Hle. apply I in Hm' as (_ & Hc & _).
    destruct (milestone_seen s m) eqn:E; [left; reflexivity|].
    right. apply I. repeat split; try assumption.
    eapply js_ge_mono; eassumption.
Qed.

(** ** Scroll depth on a page that cannot scroll *)

Lemma crosses_flat w m :
  w_scrollHeight w <= w_innerHeight w -> 0 <= w_scrollY w -> 1 <= m ->
  crosses m w = (w_scrollHeight w =? w_innerHeight w) && (0 <? w_scrollY w).
Proof.
  intros Hh Hy Hm. unfold crosses, scrollPercent, js_div.
  destruct (Z.eqb_spec (w_scrollHeight w) (w_innerHeight w)) as [E|E].
  - rewrite E, Z.sub_diag. cbn [Z.eqb andb].
    destruct (Z.eqb_spec (w_scrollY w) 0) as [->|Hne]; [reflexivity|].
    destruct (Z.ltb_spec 0 (w_scrollY w)); [reflexivity|lia].
  - cbn [andb].
    destruct (Z.eqb_spec (w_scrollHeight w - w_innerHeight w) 0); [lia|].
    cbn [js_mul_pos Math_round js_ge].
    destruct (Qle_bool _ _) eqn:Q; [|reflexivity]. exfalso.
    apply Qle_bool_iff in Q. rewrite <- Zle_Qle in Q.
    set (q := (inject_Z (w_scrollY w) /
               inject_Z (w_scrollHeight w - w_innerHeight w) * inject_Z 100 +
               (1 # 2))%Q) in *.
    assert (Hq : (q < 1)%Q).
    { subst q. destruct (w_scrollHeight w - w_innerHeight w) as [|p|p] eqn:D;
        [lia|lia|].
      unfold Qlt, Qplus, Qmult, Qdiv, Qinv, inject_Z. cbn.
      destruct (w_scrollY w) as [|y|y]; cbn;
        rewrite ?Pos.mul_1_l, ?Pos.mul_1_r, ?Pos2Z.inj_mul; lia. }
    pose proof (Qfloor_le q) as Hf.
    assert (Hlt : (inject_Z (Qfloor q) < inject_Z 1)%Q).
    { eapply Qle_lt_trans; [exact Hf|exact Hq]. }
    rewrite <- Zlt_Qlt in Hlt. lia.
Qed.

(** X11.  On a page that is not taller than the viewport the division
    of [trackScrollDepth] has a divisor that is zero or negative.  With a
    scroll position that is not negative, the sample then records
    nothing, except when the page is exactly as tall as the viewport and
    the position is positive: the quotient is +Infinity, and every
    milestone not yet reached is recorded at once. *)
Theorem scroll_depth_flat_page (w : World) (s : AnalyticsManager) :
  w_scrollHeight w <= w_innerHeight w ->
  0 <= w_scrollY w ->
  recorded (log_of (trackScrollDepth w s)) =
    if (w_scrollHeight w =? w_innerHeight w) && (0 <? w_scrollY w)
    then scroll_depth_events w
           (List.filter (fun m => negb (milestone_seen s m)) milestones)
    else [].
Proof.
  intros Hh Hy. rewrite trackScrollDepth_recorded. unfold newly_crossed.
  assert (E : List.filter (fun m => crosses m w && negb (milestone_seen s m))
                milestones =
              List.filter (fun m => (w_scrollHeight w =? w_innerHeight w) &&
                                    (0 <? w_scrollY w) &&
                                    negb (milestone_seen s m)) milestones).
  { apply List.filter_ext_in. intros m Hm.
    assert (H1 : 1 <= m).
    { unfold milestones in Hm. cbn [In] in Hm.
      destruct Hm as [<-|[<-|[<-|[<-|[]]]]]; lia. }
    rewrite crosses_flat by assumption. reflexivity. }
  rewrite E. destruct ((w_scrollHeight w =? w_innerHeight w) && (0 <? w_scrollY w)).
  - reflexivity.
  - cbn. reflexivity.
Qed.

(** ** Session ids *)

Lemma pretty_N_go_lacks_underscore x s :
  lacks "_" s = true -> lacks "_" (pretty_N_go x s) = true.
Proof.
  revert s. induction (N.lt_wf_0 x) as [x _ IH]. intros s Hs.
  assert (x = 0 \/ 0 < x)%N as [->|Hx] by lia.
  - rewrite pretty_N_go_0. exact Hs.
  - rewrite pretty_N_go_step by exact Hx. apply IH.
    + apply N.div_lt; [exact Hx|reflexivity].
    + cbn [lacks]. rewrite Hs, andb_true_r.
      unfold pretty_N_char. repeat case_match; reflexivity.
Qed.

Lemma pretty_Z_lacks_underscore (z : Z) : lacks "_" (pretty z) = true.
Proof.
  assert (HN : forall n : N, lacks "_" (pretty n) = true).
  { intros n. unfold pretty, pretty_N. case_decide; [reflexivity|].
    apply pretty_N_go_lacks_underscore. reflexivity. }
  destruct z as [|p|p]; [reflexivity|apply (HN (Npos p))|].
  change (pretty (Z.neg p)) with ("-" +:+ pretty (Npos p)).
  rewrite append_cons, append_nil. cbn [lacks]. apply (HN (Npos p)).
Qed.

Lemma split_at c a a' b b' :
  lacks c a = true -> lacks c a' = true ->
  a +:+ String c b = a' +:+ String c b' -> a = a' /\ b = b'.
Proof.
  revert a'. induction a as [|x a IH]; intros [|x' a'] Ha Ha' E;
    rewrite ?append_nil, ?append_cons in E; cbn [lacks] in Ha, Ha'.
  - injection E as E. subst. split; reflexivity.
  - injection E as E1 E2. subst x'. rewrite Ascii.eqb_refl in Ha'. discriminate.
  - injection E as E1 E2. subst x. rewrite Ascii.eqb_refl in Ha. discriminate.
  - injection E as E1 E2. subst x'.
    apply andb_true_iff in Ha as [_ Ha]. apply andb_true_iff in Ha' as [_ Ha'].
    destruct (IH a' Ha Ha' E2) as [-> ->]. split; reflexivity.
Qed.

(** X12.  A session id tells the instant and the random suffix it was
    made from: two ids are equal only if they were generated in the same
    millisecond with the same suffix.  (Nothing else keeps two sessions
    apart.) *)
Theorem session_id_injective (w w' : World) (random random' : string) :
  generateSessionId w random = generateSessionId w' random' <->
  w_now w = w_now w' /\ random = random'.
Proof.
  unfold generateSessionId. split.
  - intros E. rewrite !append_cons, !append_nil in E.
    injection E as E.
    apply split_at in E as [E1 E2]; try apply pretty_Z_lacks_underscore.
    split; [apply (inj pretty); exact E1|exact E2].
  - intros [-> ->]. reflexivity.
Qed.

(** ** Equality of values *)

Lemma value_eqb_refl : forall a, value_eqb a a = true.
Proof.
  fix IH 1. intros [| |b|n|s|items|fields]; cbn [value_eqb]; try reflexivity.
  - destruct b; reflexivity.
  - apply Z.eqb_refl.
  - apply String.eqb_refl.
  - induction items as [|x l IHl]; [reflexivity|].
    rewrite (IH x). exact IHl.
  - induction fields as [|[k x] l IHl]; [reflexivity|].
    rewrite String.eqb_refl, (IH x). exact IHl.
Qed.

Lemma value_eqb_eq : forall a b, value_eqb a b = true -> a = b.
Proof.
  fix IH 1. intros [| |b|n|s|items|fields] [| |b'|n'|s'|items'|fields'];
    cbn [value_eqb]; try discriminate; try reflexivity.
  - intros H. apply Bool.eqb_prop in H. congruence.
  - intros H. apply Z.eqb_eq in H. congruence.
  - intros H. apply String.eqb_eq in H. congruence.
  - intros H. f_equal. revert items' H.
    induction items as [|x l IHl]; intros [|y l'] H; try discriminate;
      [reflexivity|].
    apply andb_true_iff in H as [H1 H2].
    rewrite (IH x y H1), (IHl l' H2). reflexivity.
  - intros H. f_equal. revert fields' H.
    induction fields as [|[k x] l IHl]; intros [|[k' y] l'] H;
      try discriminate; [reflexivity|].
    apply andb_true_iff in H as [H1 H2]. apply andb_true_iff in H1 as [H0 H1].
    apply String.eqb_eq in H0.
    rewrite H0, (IH x y H1), (IHl l' H2). reflexivity.
Qed.

Lemma value_eqb_iff a b : value_eqb a b = true <-> a = b.
Proof. split; [apply value_eqb_eq|intros ->; apply value_eqb_refl]. Qed.

(** ** Sets of values *)

Lemma SameValueZero_true a b :
  SameValueZero a b = true <-> a = b /\ primitive a = true.
Proof.
  unfold SameValueZero. rewrite andb_true_iff, value_eqb_iff. tauto.
Qed.

Lemma existsb_SameValueZero v (l : list value) :
  existsb (SameValueZero v) l = true <-> In v l /\ primitive v = true.
Proof.
  rewrite existsb_exists. split.
  - intros (x & Hx & E). apply SameValueZero_true in E as [-> Hp].
    split; assumption.
  - intros [H Hp]. exists v. split; [exact H|].
    apply SameValueZero_true. split; [reflexivity|exact Hp].
Qed.

(** For a primitive, being the same is being equal. *)
Lemma existsb_SameValueZero_primitive v (l : list value) :
  primitive v = true ->
  existsb (SameValueZero v) l = existsb (value_eqb v) l.
Proof.
  intros H. unfold SameValueZero. rewrite H. reflexivity.
Qed.

Lemma Set_of_fold l :
  Set_of l = fold_left Set_add l [].
Proof. reflexivity. Qed.

Lemma fold_Set_add_members l acc v :
  In v (fold_left Set_add l acc) <-> In v acc \/ In v l.
Proof.
  revert acc. induction l as [|x l IH]; intros acc.
  - cbn. tauto.
  - cbn [fold_left]. rewrite IH. unfold Set_add.
    destruct (existsb (SameValueZero x) acc) eqn:E.
    + apply existsb_SameValueZero in E as [E _]. cbn [In].
      split; [tauto|]. intros [Hv|[<-|Hv]]; tauto.
    + rewrite in_app_iff. cbn [In]. tauto.
Qed.

Lemma fold_Set_add_NoDup l acc :
  Forall (fun v => primitive v = true) l ->
  NoDup acc -> NoDup (fold_left Set_add l acc).
Proof.
  intros Hl. revert acc. induction Hl as [|x l Hx _ IH]; intros acc H.
  - exact H.
  - cbn [fold_left]. apply IH. unfold Set_add.
    destruct (existsb (SameValueZero x) acc) eqn:E; [exact H|].
    apply NoDup_app. split; [exact H|]. split; [|apply NoDup_singleton].
    intros y Hy Hy'. apply list_elem_of_singleton in Hy'. subst y.
    assert (E' : existsb (SameValueZero x) acc = true).
    { apply existsb_SameValueZero. split; [apply list_elem_of_In, Hy|exact Hx]. }
    congruence.
Qed.

Lemma Set_of_members l v : In v (Set_of l) <-> In v l.
Proof. rewrite Set_of_fold, fold_Set_add_members. cbn. tauto. Qed.

Lemma Set_of_NoDup l :
  Forall (fun v => primitive v = true) l -> NoDup (Set_of l).
Proof.
  intros H. rewrite Set_of_fold. apply fold_Set_add_NoDup; [exact H|].
  apply NoDup_nil_2.
Qed.

Lemma fold_Set_add_length l acc :
  (length (fold_left Set_add l acc) <= length acc + length l)%nat.
Proof.
  revert acc. induction l as [|x l IH]; intros acc; [cbn; lia|].
  cbn [fold_left length]. etrans; [apply IH|]. unfold Set_add.
  destruct (existsb (SameValueZero x) acc); rewrite ?length_app; cbn; lia.
Qed.

Lemma Set_of_length l : (length (Set_of l) <= length l)%nat.
Proof. rewrite Set_of_fold. apply (fold_Set_add_length l []). Qed.

Lemma Set_of_snoc l v :
  Set_of (l ++ [v]) = Set_add (Set_of l) v.
Proof. rewrite !Set_of_fold, fold_left_app. reflexivity. Qed.

Lemma length_Set_of_snoc l v :
  length (Set_of (l ++ [v])) =
  (length (Set_of l) + if existsb (SameValueZero v) l then 0 else 1)%nat.
Proof.
  rewrite Set_of_snoc. unfold Set_add.
  assert (E : existsb (SameValueZero v) (Set_of l) = existsb (SameValueZero v) l).
  { apply eq_true_iff_eq. rewrite !existsb_SameValueZero, Set_of_members.
    tauto. }
  rewrite E. destruct (existsb (SameValueZero v) l); [lia|].
  rewrite length_app. reflexivity.
Qed.

Lemma sectionsVisited_snoc (q : list event) (e : event) :
  sectionsVisited q = length (Set_of (visited_targets q)) /\
  sectionsVisited (q ++ [e]) =
    (sectionsVisited q +
     if is_navigation e &&
        negb (existsb (SameValueZero (prop e "target_section"))
                (visited_targets q))
     then 1 else 0)%nat.
Proof.
  split; [reflexivity|].
  unfold sectionsVisited. rewrite List.filter_app. cbn [List.filter].
  destruct (is_navigation e); cbn [andb].
  - rewrite map_app. cbn [map]. fold (visited_targets q).
    rewrite length_Set_of_snoc.
    destruct (existsb _ (visited_targets q)); reflexivity.
  - rewrite app_nil_r. fold (visited_targets q). lia.
Qed.

(** X13.  The score counts a section once.  Take a queue and one more
    event whose navigation events all have a primitive [target_section]
    (a string, null, undefined, a number, a boolean; the [href] that a
    click reports is a string or null).  The sections the queue counts
    are the distinct [target_section] values of its navigation events,
    each once, whatever the number and the order of the visits.
    Appending the event raises the count by one when it is a navigation
    event to a section not yet among them, and leaves it as it is
    otherwise. *)
Theorem sections_counted_once (q : list event) (e : event) :
  Forall (fun v => primitive v = true) (visited_targets (q ++ [e])) ->
  NoDup (Set_of (visited_targets q)) /\
  (forall v, In v (Set_of (visited_targets q)) <-> In v (visited_targets q)) /\
  sectionsVisited q = length (Set_of (visited_targets q)) /\
  (sectionsVisited q <= length (List.filter is_navigation q))%nat /\
  sectionsVisited (q ++ [e]) =
    (sectionsVisited q +
     if is_navigation e &&
        negb (existsb (value_eqb (prop e "target_section")) (visited_targets q))
     then 1 else 0)%nat.
Proof.
  intros Hp.
  assert (E : visited_targets (q ++ [e]) =
              visited_targets q ++
              (if is_navigation e then [prop e "target_section"] else [])).
  { unfold visited_targets. rewrite List.filter_app, map_app. cbn [List.filter].
    destruct (is_navigation e); reflexivity. }
  rewrite E in Hp. apply Forall_app in Hp as [Hq He].
  split; [apply Set_of_NoDup, Hq|]. split; [apply Set_of_members|].
  split; [reflexivity|]. split.
  - unfold sectionsVisited. fold (visited_targets q).
    etrans; [apply Set_of_length|]. unfold visited_targets.
    rewrite length_map. reflexivity.
  - destruct (sectionsVisited_snoc q e) as [_ ->].
    destruct (is_navigation e); [|reflexivity]. cbn [andb].
    rewrite existsb_SameValueZero_primitive; [reflexivity|].
    inversion He; assumption.
Qed.

Lemma sections_counted_once_witness :
  Forall (fun v => primitive v = true)
    (visited_targets (events (state_of (run nine_events sample_started)) ++
                      [make_event "navigation"
                         (<["target_section" := VStr "#about"]> ∅)
                         (sample_world 20000 0) sample_started])) /\
  sectionsVisited (events (state_of (run nine_events sample_started)) ++
                   [make_event "navigation"
                      (<["target_section" := VStr "#about"]> ∅)
                      (sample_world 20000 0) sample_started]) =
  sectionsVisited (events (state_of (run nine_events sample_started))).
Proof.
  assert (H : Forall (fun v => primitive v = true)
    (visited_targets (events (state_of (run nine_events sample_started)) ++
                      [make_event "navigation"
                         (<["target_section" := VStr "#about"]> ∅)
                         (sample_world 20000 0) sample_started]))).
  { vm_compute. repeat constructor. }
  split; [exact H|].
  destruct (sections_counted_once _ _ H) as (_ & _ & _ & _ & E).
  rewrite E. vm_compute. reflexivity.
Defined.

(** ** Clicks *)

Lemma substring_0_cons n c s :
  substring 0 (S n) (String c s) = String c (substring 0 n s).
Proof. reflexivity. Qed.

Lemma substring_prefix n s :
  exists rest,
    s = substring 0 n s +:+ rest /\
    String.length (substring 0 n s) = Nat.min n (String.length s).
Proof.
  revert s. induction n as [|n IH]; intros s.
  - exists s. destruct s; split; reflexivity.
  - destruct s as [|c s]; [exists ""; split; reflexivity|].
    destruct (IH s) as (rest & E & L). exists rest.
    rewrite substring_0_cons, append_cons. cbn [String.length Nat.min].
    rewrite <- E, L. split; reflexivity.
Qed.

Lemma when_trackEvent_eq (b : bool) n d w s :
  state_of (when b (trackEvent n d w) s) =
    (if b then pushed n d w s else s) /\
  recorded (log_of (when b (trackEvent n d w) s)) =
    (if b then [(n, d)] else []).
Proof.
  destruct b; cbn [when]; [|split; reflexivity].
  split; [rewrite trackEvent_eq; reflexivity|apply recorded_trackEvent].
Qed.

Lemma is_navigation_make_event n d w s :
  d !! "event" = None ->
  is_navigation (make_event n d w s) = String.eqb n "navigation".
Proof.
  intros H. unfold is_navigation, prop. rewrite make_event_lookup, H.
  destruct (envelope_lookups n w s) as (-> & _). reflexivity.
Qed.

Lemma visited_targets_snoc q e :
  visited_targets (q ++ [e]) =
  visited_targets q ++
  (if is_navigation e then [prop e "target_section"] else []).
Proof.
  unfold visited_targets. rewrite List.filter_app, map_app. cbn [List.filter].
  destruct (is_navigation e); reflexivity.
Qed.

Lemma sectionsVisited_snoc_other q e :
  is_navigation e = false -> sectionsVisited (q ++ [e]) = sectionsVisited q.
Proof.
  intros H. unfold sectionsVisited. fold (visited_targets (q ++ [e])).
  rewrite visited_targets_snoc, H, app_nil_r. reflexivity.
Qed.

Lemma pushed_other n d w s :
  d !! "event" = None -> String.eqb n "navigation" = false ->
  sectionsVisited (events (pushed n d w s)) = sectionsVisited (events s) /\
  visited_targets (events (pushed n d w s)) = visited_targets (events s).
Proof.
  intros Hd Hn. cbn [pushed set_events events].
  assert (E : is_navigation (make_event n d w s) = false)
    by (rewrite is_navigation_make_event; assumption).
  split; [apply sectionsVisited_snoc_other, E|].
  rewrite visited_targets_snoc, E, app_nil_r. reflexivity.
Qed.

Lemma when_pushed_other (b : bool) n d w s :
  d !! "event" = None -> String.eqb n "navigation" = false ->
  sectionsVisited (events (if b then pushed n d w s else s)) =
    sectionsVisited (events s) /\
  length (events (if b then pushed n d w s else s)) =
    (length (events s) + if b then 1 else 0)%nat.
Proof.
  intros Hd Hn. destruct b.
  - split; [apply pushed_other; assumption|].
    cbn. rewrite length_app. reflexivity.
  - split; [reflexivity|lia].
Qed.

(** X14.  What a click records.  A click records a click event and,
    after it and in this order, a navigation, a download_attempt, a
    project_interest and a skill_click event for each of the four
    categories the target matches; the queue grows by as many events.
    The click event carries at most the first 100 characters of the
    text of the target.  The number of sections that the score counts
    grows by one when the target is a navigation link whose [href] was
    not yet among the sections visited, and is unchanged otherwise. *)
Theorem click_records (element : Target) (x y : Z) (vp : Viewport)
    (w : World) (s : AnalyticsManager) :
  let r := handleClick element x y vp w s in
  map fst (recorded (log_of r)) = click_event_names element /\
  length (events (state_of r)) =
    (length (events s) + length (click_event_names element))%nat /\
  (exists text rest,
     click_data element x y vp w !! "element_text" = Some (VStr text) /\
     tg_textContent element = text +:+ rest /\
     String.length text = Nat.min 100 (String.length (tg_textContent element))) /\
  sectionsVisited (events (state_of r)) =
    (sectionsVisited (events s) +
     if tg_nav_link element &&
        negb (existsb (value_eqb (opt_value (tg_href element)))
                (visited_targets (events s)))
     then 1 else 0)%nat.
Proof.
  intros r. subst r. unfold handleClick.
  set (d0 := click_data element x y vp w).
  set (d1 := <["target_section" := opt_value (tg_href element)]>
               (<["nav_text" := VStr (tg_textContent element)]> ∅) : event).
  set (d2 := <["button_text" := VStr (tg_textContent element)]> ∅ : event).
  set (d3 := <["project" := VStr (opt_or (tg_dataset_project element) "unknown")]> ∅
             : event).
  set (d4 := <["skill" := VStr (opt_or (tg_dataset_skill element)
                                  (tg_textContent element))]> ∅ : event).
  assert (E0 : d0 !! "event" = None).
  { subst d0. unfold click_data, getElementData.
    rewrite lookup_union_r; simplify_map_eq; reflexivity. }
  assert (E1 : d1 !! "event" = None) by (subst d1; simplify_map_eq; reflexivity).
  assert (E2 : d2 !! "event" = None) by (subst d2; simplify_map_eq; reflexivity).
  assert (E3 : d3 !! "event" = None) by (subst d3; simplify_map_eq; reflexivity).
  assert (E4 : d4 !! "event" = None) by (subst d4; simplify_map_eq; reflexivity).
  rewrite !log_bind, !state_bind, !recorded_app, !map_app.
  set (s0 := state_of (trackEvent "click" d0 w s)).
  assert (S0 : s0 = pushed "click" d0 w s)
    by (subst s0; rewrite trackEvent_eq; reflexivity).
  destruct (when_trackEvent_eq (tg_nav_link element) "navigation" d1 w s0)
    as [S1 R1].
  set (s1 := state_of (when (tg_nav_link element)
                         (trackEvent "navigation" d1 w) s0)) in *.
  destruct (when_trackEvent_eq (tg_download_btn element) "download_attempt" d2 w s1)
    as [S2 R2].
  set (s2 := state_of (when (tg_download_btn element)
                         (trackEvent "download_attempt" d2 w) s1)) in *.
  destruct (when_trackEvent_eq (tg_project element) "project_interest" d3 w s2)
    as [S3 R3].
  set (s3 := state_of (when (tg_project element)
                         (trackEvent "project_interest" d3 w) s2)) in *.
  destruct (when_trackEvent_eq (tg_skill_item element) "skill_click" d4 w s3)
    as [S4 R4].
  set (s4 := state_of (when (tg_skill_item element)
                         (trackEvent "skill_click" d4 w) s3)) in *.
  rewrite recorded_trackEvent, R1, R2, R3, R4.
  destruct (pushed_other "click" d0 w s E0 eq_refl) as [V0 T0].
  rewrite <- S0 in V0, T0.
  assert (L0 : length (events s0) = (length (events s) + 1)%nat).
  { rewrite S0. cbn. rewrite length_app. reflexivity. }
  destruct (when_pushed_other (tg_download_btn element) "download_attempt" d2 w s1
              E2 eq_refl) as [V2 L2]. rewrite <- S2 in V2, L2.
  destruct (when_pushed_other (tg_project element) "project_interest" d3 w s2
              E3 eq_refl) as [V3 L3]. rewrite <- S3 in V3, L3.
  destruct (when_pushed_other (tg_skill_item element) "skill_click" d4 w s3
              E4 eq_refl) as [V4 L4]. rewrite <- S4 in V4, L4.
  assert (N1 : sectionsVisited (events s1) =
               (sectionsVisited (events s0) +
                if tg_nav_link element &&
                   negb (existsb (value_eqb (opt_value (tg_href element)))
                           (visited_targets (events s0)))
                then 1 else 0)%nat /\
               length (events s1) =
               (length (events s0) + if tg_nav_link element then 1 else 0)%nat).
  { rewrite S1. destruct (tg_nav_link element); cbn [andb];
      [|split; lia].
    cbn [pushed set_events events]. split; [|rewrite length_app; reflexivity].
    destruct (sectionsVisited_snoc (events s0)
                (make_event "navigation" d1 w s0)) as [_ ->].
    rewrite is_navigation_make_event by exact E1. cbn [andb].
    assert (P1 : prop (make_event "navigation" d1 w s0) "target_section" =
                 opt_value (tg_href element)).
    { unfold prop. rewrite make_event_lookup. subst d1.
      rewrite lookup_insert_eq. reflexivity. }
    rewrite P1. rewrite existsb_SameValueZero_primitive
      by (destruct (tg_href element); reflexivity).
    reflexivity. }
  destruct N1 as [V1 L1].
  split; [|split; [|split]].
  - unfold click_event_names.
    destruct (tg_nav_link element), (tg_download_btn element),
      (tg_project element), (tg_skill_item element); reflexivity.
  - rewrite L4, L3, L2, L1, L0. unfold click_event_names.
    destruct (tg_nav_link element), (tg_download_btn element),
      (tg_project element), (tg_skill_item element); cbn; lia.
  - destruct (substring_prefix 100 (tg_textContent element)) as (rest & E & L).
    exists (substring 0 100 (tg_textContent element)), rest.
    split; [|split; [exact E|exact L]].
    subst d0. unfold click_data, getElementData.
    rewrite lookup_union_r; simplify_map_eq; reflexivity.
  - rewrite V4, V3, V2, V1, V0, T0. reflexivity.
Qed.

(** ** The page: opting out and in *)



(** X16.  Opting out.  [disableAnalytics] stores the flag ['false'],
    posts the pending queue when a session is live and its queue is not
    empty, and sets the global to null.  From then on the global
    [trackAnalyticsEvent] records nothing and sends nothing, and the
    next page load constructs no session.  A page load constructs one
    whenever the stored flag is anything but the string ['false'].
    [enableAnalytics] on a page with a live session keeps that session
    and records nothing. *)
Theorem opt_out (p : Page) (w w' : World) (random : string)
    (page_load : event) (n : string) (d : event) :
  let p' := fst (disableAnalytics w p) in
  analytics p' = None /\
  analytics_enabled p' = Some "false" /\
  fetches (snd (disableAnalytics w p)) =
    match analytics p with
    | Some a => match events a with [] => [] | _ => [request_of w a] end
    | None => []
    end /\
  page_track n d w' p' = (p', []) /\
  on_DOMContentLoaded random page_load w' p' = (p', []) /\
  (analytics_enabled p <> Some "false" ->
   analytics (fst (on_DOMContentLoaded random page_load w' p)) =
     Some (fst (construct random page_load w'))) /\
  (forall a, analytics p = Some a ->
     enableAnalytics random page_load w' p =
       ({| analytics_enabled := Some "true"; analytics := Some a |}, [])).
Proof.
  cbv zeta. unfold disableAnalytics.
  destruct (analytics p) as [a|] eqn:A; cbn [fst snd analytics analytics_enabled].
  all: repeat split; try reflexivity.
  - apply fetches_sendAnalytics.
  - intros H. unfold on_DOMContentLoaded.
    rewrite bool_decide_eq_false_2 by exact H. reflexivity.
  - intros a0 [= <-]. unfold enableAnalytics. rewrite A. reflexivity.
  - intros H. unfold on_DOMContentLoaded.
    rewrite bool_decide_eq_false_2 by exact H. reflexivity.
  - intros a0 [=].
Qed.

(** ** The deepest scroll *)

Lemma num_max_Z a b :
  num_max (Fin (inject_Z a)) (Fin (inject_Z b)) = Fin (inject_Z (Z.max a b)).
Proof.
  cbn [num_max]. destruct (Qle_bool (inject_Z a) (inject_Z b)) eqn:E.
  - apply Qle_bool_iff in E. rewrite <- Zle_Qle in E.
    rewrite Z.max_r by exact E. reflexivity.
  - assert (H : ~ a <= b).
    { intros H. rewrite Zle_Qle in H. apply Qle_bool_iff in H. congruence. }
    rewrite Z.max_l by lia. reflexivity.
Qed.

Lemma fold_num_max_Z l a :
  fold_left num_max (map (fun z => Fin (inject_Z z)) l) (Fin (inject_Z a)) =
  Fin (inject_Z (fold_left Z.max l a)).
Proof.
  revert a. induction l as [|x l IH]; intros a; [reflexivity|].
  cbn [map fold_left]. rewrite num_max_Z. apply IH.
Qed.

Lemma fold_num_max_NaN l : fold_left num_max l NaN = NaN.
Proof. induction l as [|x l IH]; [reflexivity|exact IH]. Qed.

Lemma num_max_NaN_r a : num_max a NaN = NaN.
Proof. destruct a; reflexivity. Qed.

Lemma fold_num_max_In_NaN l a : In NaN l -> fold_left num_max l a = NaN.
Proof.
  revert a. induction l as [|x l IH]; intros a []; cbn [fold_left].
  - subst x. rewrite num_max_NaN_r. apply fold_num_max_NaN.
  - apply IH. assumption.
Qed.

Lemma fold_max_spec l a :
  a <= fold_left Z.max l a /\
  Forall (fun x => x <= fold_left Z.max l a) l /\
  (fold_left Z.max l a = a \/ In (fold_left Z.max l a) l).
Proof.
  revert a. induction l as [|x l IH]; intros a.
  - cbn. split; [lia|]. split; [constructor|left; reflexivity].
  - cbn [fold_left]. destruct (IH (Z.max a x)) as (H1 & H2 & H3).
    split; [lia|]. split; [constructor; [lia|exact H2]|].
    destruct H3 as [H3|H3]; [|right; right; exact H3].
    rewrite H3. destruct (Z.max_spec a x) as [[_ E]|[_ E]]; rewrite E.
    + right; left; reflexivity.
    + left; reflexivity.
Qed.

(** [max0] depends on the members of the list only. *)
Lemma max0_members l l' :
  (forall x, In x l <-> In x l') -> max0 l = max0 l'.
Proof.
  intros H. unfold max0.
  destruct (fold_max_spec l 0) as (A1 & A2 & A3).
  destruct (fold_max_spec l' 0) as (B1 & B2 & B3).
  rewrite Forall_forall in A2, B2.
  assert (L1 : fold_left Z.max l 0 <= fold_left Z.max l' 0).
  { destruct A3 as [->|A3]; [exact B1|].
    apply B2, list_elem_of_In, H, A3. }
  assert (L2 : fold_left Z.max l' 0 <= fold_left Z.max l 0).
  { destruct B3 as [->|B3]; [exact A1|].
    apply A2, list_elem_of_In, H, B3. }
  lia.
Qed.

Section MaxScroll.

Variable StringToNumber : string -> number.
Variable ObjectToString : value -> string.

Lemma depth_numbers s (l : list Z) :
  scroll_percentages (events s) = map VNum l ->
  getMaxScrollDepth StringToNumber ObjectToString s = Fin (inject_Z (max0 l)).
Proof.
  intros H. unfold getMaxScrollDepth, Math_max.
  cbn [fold_left num_max].
  rewrite <- (map_map (fun e => prop e "percentage")
                (to_number StringToNumber ObjectToString)).
  fold (scroll_percentages (events s)). rewrite H, map_map. cbn [to_number].
  change (Fin 0) with (Fin (inject_Z 0)). apply fold_num_max_Z.
Qed.

Lemma depth_NaN s e :
  In e (events s) -> is_scroll_depth_event e = true ->
  to_number StringToNumber ObjectToString (prop e "percentage") = NaN ->
  getMaxScrollDepth StringToNumber ObjectToString s = NaN.
Proof.
  intros Hin He Hn. unfold getMaxScrollDepth, Math_max.
  cbn [fold_left]. apply fold_num_max_In_NaN.
  rewrite <- Hn.
  apply (in_map (fun e => to_number StringToNumber ObjectToString
                            (prop e "percentage"))).
  apply List.filter_In. split; assumption.
Qed.

End MaxScroll.

Lemma scroll_event_props m w s :
  is_scroll_depth_event
    (make_event "scroll_depth" (scroll_depth_data m w) w s) = true /\
  prop (make_event "scroll_depth" (scroll_depth_data m w) w s) "percentage" =
    VNum m.
Proof.
  unfold is_scroll_depth_event, prop. rewrite !make_event_lookup.
  unfold scroll_depth_data. rewrite lookup_insert_eq.
  rewrite lookup_insert_ne by discriminate.
  rewrite lookup_insert_ne by discriminate. rewrite lookup_empty.
  destruct (envelope_lookups "scroll_depth" w s) as (-> & _).
  split; reflexivity.
Qed.

Lemma scroll_percentages_app q1 q2 :
  scroll_percentages (q1 ++ q2) = scroll_percentages q1 ++ scroll_percentages q2.
Proof. unfold scroll_percentages. rewrite List.filter_app, map_app. reflexivity. Qed.

Lemma on_milestone_percentages pct w m s :
  scroll_percentages (events (state_of (on_milestone pct w m s))) =
  scroll_percentages (events s) ++
  (if js_ge pct m && negb (milestone_seen s m) then [VNum m] else []).
Proof.
  unfold on_milestone, when. rewrite state_bind. cbn [get fst snd state_of].
  destruct (js_ge pct m && negb (milestone_seen s m));
    [|cbn; rewrite app_nil_r; reflexivity].
  rewrite !state_bind. cbn [modify fst snd state_of].
  rewrite trackEvent_eq. cbn [state_of fst snd pushed set_events events
                              set_scrollMilestones].
  rewrite scroll_percentages_app. apply (f_equal (app _)).
  unfold scroll_percentages. cbn [List.filter].
  match goal with |- context [is_scroll_depth_event (make_event _ _ _ ?q)] =>
    destruct (scroll_event_props m w q) as [E1 E2]; rewrite E1; cbn [map];
    rewrite E2 end.
  reflexivity.
Qed.

Lemma forEach_milestones_percentages pct w ml s :
  NoDup ml ->
  scroll_percentages (events (state_of (forEach (on_milestone pct w) ml s))) =
  scroll_percentages (events s) ++
  map VNum (List.filter (fun m => js_ge pct m && negb (milestone_seen s m)) ml).
Proof.
  intros H. revert s. induction H as [|m ml Hm _ IH]; intros s.
  - cbn. rewrite app_nil_r. reflexivity.
  - cbn [forEach]. rewrite state_bind, IH, on_milestone_percentages.
    cbn [List.filter].
    assert (E : List.filter (fun m0 => js_ge pct m0 &&
                  negb (milestone_seen (state_of (on_milestone pct w m s)) m0)) ml =
                List.filter (fun m0 => js_ge pct m0 && negb (milestone_seen s m0)) ml).
    { apply List.filter_ext_in. intros m' Hin. rewrite on_milestone_seen.
      destruct (Z.eqb_spec m m') as [->|_].
      - exfalso. apply Hm, list_elem_of_In, Hin.
      - rewrite orb_false_r. reflexivity. }
    rewrite E, <- app_assoc.
    destruct (js_ge pct m && negb (milestone_seen s m)); reflexivity.
Qed.

Lemma trackScrollDepth_percentages w s :
  scroll_percentages (events (state_of (trackScrollDepth w s))) =
  scroll_percentages (events s) ++ map VNum (newly_crossed w s).
Proof. apply forEach_milestones_percentages, milestones_NoDup. Qed.

Lemma scroll_samples_percentages ws s :
  exists l,
    scroll_percentages (events (state_of (scroll_samples ws s))) =
      scroll_percentages (events s) ++ map VNum l /\
    forall m, In m l <->
      In m milestones /\ existsb (crosses m) ws = true /\
      milestone_seen s m = false.
Proof.
  revert s. induction ws as [|w ws IH]; intros s.
  - exists []. split; [cbn; rewrite app_nil_r; reflexivity|].
    intros m. cbn. split; [tauto|]. intros (_ & H & _). discriminate.
  - destruct (IH (state_of (trackScrollDepth w s))) as (l1 & E1 & I1).
    exists (newly_crossed w s ++ l1). split.
    + unfold scroll_samples in *. cbn [forEach]. rewrite state_bind, E1.
      rewrite trackScrollDepth_percentages, map_app, app_assoc. reflexivity.
    + intros m. rewrite in_app_iff, I1. unfold newly_crossed.
      rewrite List.filter_In, trackScrollDepth_seen. cbn [existsb].
      rewrite andb_true_iff, negb_true_iff, orb_true_iff, orb_false_iff.
      split.
      * intros [(Hm & Hc & Hs)|(Hm & Hc & Hs & _)]; tauto.
      * intros (Hm & [Hc|Hc] & Hs); [left; tauto|].
        destruct (crosses m w) eqn:C; [left; tauto|].
        right. rewrite andb_false_r. tauto.
Qed.

(** X17.  [getMaxScrollDepth] reports the deepest milestone among the
    scroll_depth events of the pending queue.  In a session that has
    reached no milestone and whose queue holds no scroll_depth event
    yet, after any series of scroll samples it returns the greatest of
    25, 50, 75, 100 that some sample was at or beyond, and 0 when there
    is none.  In any state, a scroll_depth event in the queue whose
    [percentage] converts to NaN (it is missing, for one) makes the
    result NaN. *)
Theorem max_scroll_depth (StringToNumber : string -> number)
    (ObjectToString : value -> string)
    (s : AnalyticsManager) (ws : list World) :
  (forall m, milestone_seen s m = false) ->
  scroll_percentages (events s) = [] ->
  getMaxScrollDepth StringToNumber ObjectToString
    (state_of (scroll_samples ws s)) =
    Fin (inject_Z (max0 (crossed_by ws))) /\
  In (max0 (crossed_by ws)) (0 :: milestones) /\
  (forall q e, In e (events q) -> is_scroll_depth_event e = true ->
     to_number StringToNumber ObjectToString (prop e "percentage") = NaN ->
     getMaxScrollDepth StringToNumber ObjectToString q = NaN) /\
  (forall q e, In e (events q) -> is_scroll_depth_event e = true ->
     e !! "percentage" = None ->
     getMaxScrollDepth StringToNumber ObjectToString q = NaN).
Proof.
  intros Hs Hq.
  destruct (scroll_samples_percentages ws s) as (l & E & I).
  rewrite Hq in E. cbn [app] in E.
  assert (M : max0 l = max0 (crossed_by ws)).
  { apply max0_members. intros m. rewrite I. unfold crossed_by.
    rewrite List.filter_In. specialize (Hs m). tauto. }
  split; [|split; [|split]].
  - rewrite (depth_numbers _ _ _ l E), M. reflexivity.
  - destruct (fold_max_spec (crossed_by ws) 0) as (_ & _ & [H|H]).
    + left. symmetry. exact H.
    + right. unfold crossed_by in H. apply List.filter_In in H. apply H.
  - intros q e. apply depth_NaN.
  - intros q e H1 H2 H3. apply (depth_NaN _ _ q e H1 H2).
    unfold prop. rewrite H3. reflexivity.
Qed.

(** ** Instances *)

Lemma queue_append_only_witness :
  forallb not_success sample_tasks = true /\
  events sample_started `prefix_of`
    events (state_of (handle_all sample_tasks sample_started)) /\
  length (events (state_of (handle_all sample_tasks sample_started))) =
    (length (events sample_started) +
     length (recorded (log_of (handle_all sample_tasks sample_started))))%nat.
Proof.
  assert (H : forallb not_success sample_tasks = true) by reflexivity.
  destruct (queue_append_only sample_tasks sample_started H) as (H1 & H2 & _).
  split; [exact H|]. split; [exact H1|exact H2].
Defined.

Lemma blur_time_since_focus_witness :
  forallb not_focus sample_tasks = true /\
  recorded (log_of (on_visibilitychange true (sample_world 500000 600)
    (state_of (handle_all sample_tasks
       (state_of (on_visibilitychange false (sample_world 500 0)
          sample_started)))))) =
  [("page_blur",
    <["time_spent" := VNum (w_now (sample_world 500000 600) -
                            w_now (sample_world 500 0))]> ∅)].
Proof.
  assert (H : forallb not_focus sample_tasks = true) by reflexivity.
  split; [exact H|].
  exact (proj2 (proj2 (blur_time_since_focus sample_tasks sample_started
                         (sample_world 500 0) (sample_world 500000 600) H))).
Defined.

Lemma success_drops_unsent_witness :
  events sample_started <> [] /\
  (length (events sample_started) + length [click_at 2000; click_at 3000] < 10)%nat /\
  ok 200 = true /\
  fetches (log_of (run (Flush (sample_world 1000 0) ::
                        map track_of [click_at 2000; click_at 3000] ++
                        [Settle (Resolved 200)]) sample_started)) =
    [request_of (sample_world 1000 0) sample_started] /\
  events (state_of (run (Flush (sample_world 1000 0) ::
                         map track_of [click_at 2000; click_at 3000] ++
                         [Settle (Resolved 200)]) sample_started)) = [].
Proof.
  assert (H1 : events sample_started <> []) by discriminate.
  assert (H2 : (length (events sample_started) +
                length [click_at 2000; click_at 3000] < 10)%nat) by (cbn; lia).
  assert (H3 : ok 200 = true) by reflexivity.
  destruct (success_drops_unsent sample_started (sample_world 1000 0)
              [click_at 2000; click_at 3000] 200 H1 H2 H3) as (A & _ & _ & B).
  repeat (split; [assumption|]). exact B.
Defined.

Lemma every_recording_resends_witness :
  (9 <= length (events (state_of (run nine_events sample_started))))%nat /\
  map r_events (fetches (log_of (run (map track_of [click_at 20000; click_at 21000])
                                   (state_of (run nine_events sample_started))))) =
  map (fun k => events (state_of (run nine_events sample_started)) ++
                take k (tracked (state_of (run nine_events sample_started))
                          (map track_of [click_at 20000; click_at 21000])))
      (seq 1 (length [click_at 20000; click_at 21000])).
Proof.
  assert (H : (9 <= length (events (state_of (run nine_events sample_started))))%nat).
  { vm_compute. lia. }
  split; [exact H|].
  exact (every_recording_resends [click_at 20000; click_at 21000] _ H).
Defined.


Lemma scroll_depth_flat_page_witness :
  w_scrollHeight short_page <= w_innerHeight short_page /\
  0 <= w_scrollY short_page /\
  recorded (log_of (trackScrollDepth short_page sample_started)) = [].
Proof.
  assert (H1 : w_scrollHeight short_page <= w_innerHeight short_page)
    by (cbn; lia).
  assert (H2 : 0 <= w_scrollY short_page) by (cbn; lia).
  split; [exact H1|]. split; [exact H2|].
  exact (scroll_depth_flat_page short_page sample_started H1 H2).
Defined.

Lemma max_scroll_depth_witness :
  (forall m, milestone_seen sample_started m = false) /\
  scroll_percentages (events sample_started) = [] /\
  getMaxScrollDepth no_number no_string
    (state_of (scroll_samples
       [sample_world 1000 300; sample_world 2000 0; sample_world 3000 600]
       sample_started)) =
  Fin (inject_Z (max0 (crossed_by
       [sample_world 1000 300; sample_world 2000 0; sample_world 3000 600]))).
Proof.
  assert (H1 : forall m, milestone_seen sample_started m = false)
    by (intros m; reflexivity).
  assert (H2 : scroll_percentages (events sample_started) = []) by reflexivity.
  split; [exact H1|]. split; [exact H2|].
  exact (proj1 (max_scroll_depth no_number no_string sample_started _ H1 H2)).
Defined.

(** ** Bounds of the engagement score *)

Lemma Qfloor_between (y : Q) (lo hi : Z) :
  (inject_Z lo <= y)%Q -> (y < inject_Z (hi + 1))%Q -> lo <= Qfloor y <= hi.
Proof.
  intros Hlo Hhi. split.
  - rewrite <- (Qfloor_Z lo). apply Qfloor_resp_le, Hlo.
  - assert (H : (inject_Z (Qfloor y) < inject_Z (hi + 1))%Q).
    { eapply Qle_lt_trans; [apply Qfloor_le|exact Hhi]. }
    rewrite <- Zlt_Qlt in H. lia.
Qed.

(** X18.  Bounds of the engagement score.  When the clock has not
    gone back since the start of the session, the time contributes
    between 0 and 100 points: the score is at least the points of the
    events (two each, fifty at most) and of the sections (twenty each),
    and at most 100 more; from ten minutes on it is exactly 100 more. *)
Theorem engagement_score_bounds (w : World) (s : AnalyticsManager) :
  startTime s <= w_now w ->
  score_of_events s <= calculateEngagementScore w s <= score_of_events s + 100 /\
  (10 * 60 * 1000 <= w_now w - startTime s ->
   calculateEngagementScore w s = score_of_events s + 100) /\
  0 <= score_of_events s <= 100 + 20 * Z.of_nat (sectionsVisited (events s)).
Proof.
  intros Ht. unfold calculateEngagementScore, round_Q, score_of_events.
  set (t := w_now w - startTime s).
  set (n := Z.of_nat (Nat.min (length (events s)) 50)).
  set (k := Z.of_nat (sectionsVisited (events s))).
  set (x := Qmin (inject_Z t / inject_Z (60 * 1000)) 10).
  assert (Ht0 : 0 <= t) by (subst t; lia).
  assert (Hq : (inject_Z t / inject_Z (60 * 1000) ==
                inject_Z t * (1 # 60000))%Q) by reflexivity.
  assert (Hx0 : (0 <= x)%Q).
  { subst x. apply Q.min_glb; [|discriminate].
    rewrite Hq. apply Qmult_le_0_compat; [|discriminate].
    change 0%Q with (inject_Z 0). rewrite <- Zle_Qle. exact Ht0. }
  assert (Hx10 : (x <= 10)%Q) by (subst x; apply Q.le_min_r).
  assert (E : ((0 + x * 10 + inject_Z n * 2 + inject_Z k * 20 + (1 # 2)) ==
               x * 10 + (1 # 2) + inject_Z (n * 2 + k * 20))%Q).
  { rewrite !inject_Z_plus, !inject_Z_mult. ring. }
  rewrite (Qfloor_comp _ _ E). clear E.
  assert (B : forall lo hi, (inject_Z lo <= x * 10 + (1 # 2))%Q ->
              (x * 10 + (1 # 2) < inject_Z (hi + 1))%Q ->
              n * 2 + k * 20 + lo <=
              Qfloor (x * 10 + (1 # 2) + inject_Z (n * 2 + k * 20)) <=
              n * 2 + k * 20 + hi).
  { intros lo hi Hlo Hhi.
    apply (Qfloor_between _ (n * 2 + k * 20 + lo) (n * 2 + k * 20 + hi)).
    - rewrite inject_Z_plus. rewrite Qplus_comm. apply Qplus_le_compat;
        [exact Hlo|apply Qle_refl].
    - replace (n * 2 + k * 20 + hi + 1) with ((hi + 1) + (n * 2 + k * 20)) by lia.
      rewrite (inject_Z_plus (hi + 1)).
      apply Qplus_lt_le_compat; [exact Hhi|apply Qle_refl]. }
  assert (L : (inject_Z 0 <= x * 10 + (1 # 2))%Q).
  { change (inject_Z 0) with (0 + 0)%Q. apply Qplus_le_compat; [|discriminate].
    apply Qmult_le_0_compat; [exact Hx0|discriminate]. }
  assert (U : (x * 10 + (1 # 2) < inject_Z (100 + 1))%Q).
  { apply Qle_lt_trans with (10 * 10 + (1 # 2))%Q; [|reflexivity].
    apply Qplus_le_compat; [|apply Qle_refl].
    apply Qmult_le_compat_r; [exact Hx10|discriminate]. }
  split; [|split].
  - pose proof (B 0 100 L U). lia.
  - intros Hten.
    assert (X : (x == 10)%Q).
    { subst x. apply Q.min_r. rewrite Hq.
      apply Qle_trans with (inject_Z 600000 * (1 # 60000))%Q; [discriminate|].
      apply Qmult_le_compat_r; [|discriminate].
      rewrite <- Zle_Qle. lia. }
    assert (L' : (inject_Z 100 <= x * 10 + (1 # 2))%Q).
    { rewrite X. discriminate. }
    pose proof (B 100 100 L' U). lia.
  - subst n k. lia.
Qed.

Lemma engagement_score_bounds_witness :
  startTime sample_started <= w_now (sample_world 300000 0) /\
  score_of_events sample_started <=
    calculateEngagementScore (sample_world 300000 0) sample_started <=
    score_of_events sample_started + 100.
Proof.
  assert (H : startTime sample_started <= w_now (sample_world 300000 0))
    by (cbn; lia).
  split; [exact H|].
  exact (proj1 (engagement_score_bounds (sample_world 300000 0) sample_started H)).
Defined.
